(** * voice_front_end: the voice-agent page, the recordings grid and the
      model-management panel, embedded as state-passing functions.

    The React components keep their state in [useState] cells and change it
    from event handlers and from [setTimeout] callbacks.  A component is
    modelled as a record with one field per [useState] cell; a handler is a
    function on that record (plus the pending timers, the clock read by
    [Date.now()] and the toasts shown so far).  Handlers read the cells of
    the render they were created in and enqueue updates; the updates of one
    handler run are applied in program order, which is how React processes
    a batch. *)

From Stdlib Require Import List String Ascii Bool NArith QArith Lia.
From Stdlib Require Import DecimalString.
From Stdlib Require DecimalPos DecimalN Sorted.
Import ListNotations.
Local Open Scope string_scope.
Local Open Scope N_scope.

(** ** JavaScript helpers *)

Module JS.

(** A string is read as its sequence of code units; the model covers the
    code units below 256, one [ascii] each.  The white space and line
    terminators that [String.prototype.trim] strips are, in that range,
    TAB, LF, VT, FF, CR, SPACE and NBSP. *)
Definition isWhiteSpace (c : ascii) : bool :=
  match N_of_ascii c with
  | 9 | 10 | 11 | 12 | 13 | 32 | 160 => true
  | _ => false
  end.

Fixpoint trimStart (s : string) : string :=
  match s with
  | EmptyString => EmptyString
  | String c r => if isWhiteSpace c then trimStart r else s
  end.

Fixpoint trimEnd (s : string) : string :=
  match s with
  | EmptyString => EmptyString
  | String c r =>
      match trimEnd r with
      | EmptyString => if isWhiteSpace c then EmptyString else String c EmptyString
      | r' => String c r'
      end
  end.

(** [s.trim()] *)
Definition trim (s : string) : string := trimEnd (trimStart s).

(** Truthiness of a string: only the empty string is falsy. *)
Definition truthy (s : string) : bool :=
  match s with EmptyString => false | String _ _ => true end.

(** [a || b] on strings. *)
Definition or_else (a b : string) : string := if truthy a then a else b.

(** [n.toString()] for a non-negative integer. *)
Definition toString (n : N) : string := NilZero.string_of_uint (N.to_uint n).

Fixpoint whitespaceOnly (s : string) : bool :=
  match s with
  | EmptyString => true
  | String c r => isWhiteSpace c && whitespaceOnly r
  end.

End JS.

(** ** The voice-agent page *)

Module VoiceAgent.

Inductive MessageType := user | agent.

(** [interface ConversationMessage]; the two optional fields are [None]
    when the object literal leaves them out.  [timestamp] is the
    millisecond count of the [Date]. *)
Record ConversationMessage := mkMessage {
  id : string;
  type : MessageType;
  content : string;
  timestamp : N;
  language : option string;
  confidence : option Q
}.

Module Settings.
(** [interface VoiceSettings] *)
Record VoiceSettings := mk {
  language : string;
  sttModel : string;
  ttsModel : string;
  llmModel : string
}.

Definition initial : VoiceSettings :=
  {| language := "en";
     sttModel := "whisper-large-v3";
     ttsModel := "simba-multilingual";
     llmModel := "llama3-70b-8192" |}.
End Settings.

(** One field per [useState] cell of the component. *)
Record State := mkState {
  isConnected : bool;
  isRecording : bool;
  isMuted : bool;
  conversation : list ConversationMessage;
  currentTranscription : string;
  isProcessing : bool;
  settingsOpen : bool;
  textInput : string;
  voiceSettings : Settings.VoiceSettings
}.

Definition initialState : State :=
  {| isConnected := false;
     isRecording := false;
     isMuted := false;
     conversation := [];
     currentTranscription := EmptyString;
     isProcessing := false;
     settingsOpen := false;
     textInput := EmptyString;
     voiceSettings := Settings.initial |}.

(** The bodies of the arrow functions handed to [setTimeout]. *)
Inductive Callback :=
| TranscriptionUpdate (text : string)
    (* () => { setCurrentTranscription(text) } *)
| RecordingReply
    (* the callback of handleStopRecording *)
| TextReply (userContent : string)
    (* the callback of handleTextSubmit; it captures userMessage.content *).

Record Timer := mkTimer { due : N; callback : Callback }.

Inductive Toast :=
| ToastSuccess (msg : string)
| ToastError (msg : string).

(** The component state together with what surrounds it: the timers that
    have been set and have not fired, the clock, the toasts shown. *)
Record World := mkWorld {
  ui : State;
  timers : list Timer;
  now : N;
  toasts : list Toast
}.

Definition initialWorld (t0 : N) : World :=
  {| ui := initialState; timers := []; now := t0; toasts := [] |}.

Definition with_ui (f : State -> State) (w : World) : World :=
  {| ui := f (ui w); timers := timers w; now := now w; toasts := toasts w |}.

(** *** Effects

    A handler body is a computation over the world that either completes
    or throws; the effects made before a throw stay. *)
Definition Eff (A : Type) : Type := World -> World * option A.

Definition ret {A} (a : A) : Eff A := fun w => (w, Some a).

Definition bind {A B} (m : Eff A) (k : A -> Eff B) : Eff B :=
  fun w =>
    match m w with
    | (w', Some a) => k a w'
    | (w', None) => (w', None)
    end.

Definition throw {A} : Eff A := fun w => (w, None).

(** [try { body } catch (error) { handler }] *)
Definition try_catch (body handler : Eff unit) : Eff unit :=
  fun w =>
    match body w with
    | (w', Some a) => (w', Some a)
    | (w', None) => handler w'
    end.

Definition run (m : Eff unit) (w : World) : World := fst (m w).

Declare Scope eff_scope.
Delimit Scope eff_scope with eff.
Notation "x <- m ;; k" := (bind m (fun x => k))
  (at level 61, m at next level, right associativity) : eff_scope.
Notation "m ;; k" := (bind m (fun _ => k))
  (at level 61, right associativity) : eff_scope.
Local Open Scope eff_scope.

Definition modify (f : State -> State) : Eff unit :=
  fun w => (with_ui f w, Some tt).

(** The state setters. *)
Definition setIsConnected (b : bool) : Eff unit :=
  modify (fun s =>
    mkState b (isRecording s) (isMuted s) (conversation s)
      (currentTranscription s) (isProcessing s) (settingsOpen s)
      (textInput s) (voiceSettings s)).

Definition setIsRecording (b : bool) : Eff unit :=
  modify (fun s =>
    mkState (isConnected s) b (isMuted s) (conversation s)
      (currentTranscription s) (isProcessing s) (settingsOpen s)
      (textInput s) (voiceSettings s)).

Definition setIsMuted (b : bool) : Eff unit :=
  modify (fun s =>
    mkState (isConnected s) (isRecording s) b (conversation s)
      (currentTranscription s) (isProcessing s) (settingsOpen s)
      (textInput s) (voiceSettings s)).

(** [setConversation] with an updater; [setConversation(v)] is the
    constant updater. *)
Definition setConversation
    (upd : list ConversationMessage -> list ConversationMessage) : Eff unit :=
  modify (fun s =>
    mkState (isConnected s) (isRecording s) (isMuted s) (upd (conversation s))
      (currentTranscription s) (isProcessing s) (settingsOpen s)
      (textInput s) (voiceSettings s)).

Definition setCurrentTranscription (t : string) : Eff unit :=
  modify (fun s =>
    mkState (isConnected s) (isRecording s) (isMuted s) (conversation s)
      t (isProcessing s) (settingsOpen s)
      (textInput s) (voiceSettings s)).

Definition setIsProcessing (b : bool) : Eff unit :=
  modify (fun s =>
    mkState (isConnected s) (isRecording s) (isMuted s) (conversation s)
      (currentTranscription s) b (settingsOpen s)
      (textInput s) (voiceSettings s)).

Definition setSettingsOpen (b : bool) : Eff unit :=
  modify (fun s =>
    mkState (isConnected s) (isRecording s) (isMuted s) (conversation s)
      (currentTranscription s) (isProcessing s) b
      (textInput s) (voiceSettings s)).

Definition setTextInput (t : string) : Eff unit :=
  modify (fun s =>
    mkState (isConnected s) (isRecording s) (isMuted s) (conversation s)
      (currentTranscription s) (isProcessing s) (settingsOpen s)
      t (voiceSettings s)).

Definition setVoiceSettings
    (upd : Settings.VoiceSettings -> Settings.VoiceSettings) : Eff unit :=
  modify (fun s =>
    mkState (isConnected s) (isRecording s) (isMuted s) (conversation s)
      (currentTranscription s) (isProcessing s) (settingsOpen s)
      (textInput s) (upd (voiceSettings s))).

(** [toast.success(msg)], [toast.error(msg)] *)
Definition toast (t : Toast) : Eff unit :=
  fun w =>
    ({| ui := ui w; timers := timers w; now := now w;
        toasts := toasts w ++ [t] |}, Some tt).

(** [setTimeout(cb, delay)]: nothing in the component keeps the handle or
    clears a timer. *)
Definition setTimeout (cb : Callback) (delay : N) : Eff unit :=
  fun w =>
    ({| ui := ui w;
        timers := timers w ++ [mkTimer (now w + delay) cb];
        now := now w; toasts := toasts w |}, Some tt).

(** [Date.now()], and the millisecond count of [new Date()]. *)
Definition Date_now : Eff N := fun w => (w, Some (now w)).

(** The calls inside a [try] block that leave React: each may throw.
    The state setters only enqueue an update and do not throw; the calls
    of a [catch] block are taken not to throw. *)
Inductive CallSite :=
| ConnectToast | ConnectDate
| StartToast | StartTimeout1 | StartTimeout2
| StopDate | StopTimeout.

Definition Faults := CallSite -> bool.

Definition noFaults : Faults := fun _ => false.

Definition ext {A} (f : Faults) (c : CallSite) (m : Eff A) : Eff A :=
  if f c then throw else m.

(** *** Handlers

    Every handler reads the cells of the render it belongs to: [s] below.
    The reads are written as reads of [s], the writes as setter calls. *)

Definition welcomeMessage (t : N) : ConversationMessage :=
  {| id := JS.toString t;
     type := agent;
     content := "Hello! I'm your voice assistant. How can I help you today?";
     timestamp := t;
     language := None;
     confidence := None |}.

Definition handleConnect (f : Faults) (w : World) : World :=
  run (try_catch
         (setIsConnected true ;;
          ext f ConnectToast (toast (ToastSuccess "Connected to voice agent")) ;;
          t <- ext f ConnectDate Date_now ;;
          setConversation (fun _ => [welcomeMessage t]))
         (toast (ToastError "Failed to connect to voice agent") ;;
          setIsConnected false)) w.

Definition handleDisconnect (w : World) : World :=
  run (setIsConnected false ;;
       setIsRecording false ;;
       setIsProcessing false ;;
       toast (ToastSuccess "Disconnected from voice agent")) w.

Definition partialTranscription : string := "Hello, I need help with...".
Definition fullTranscription : string :=
  "Hello, I need help with my account settings".

Definition handleStartRecording (f : Faults) (w : World) : World :=
  let s := ui w in
  if negb (isConnected s) then
    run (toast (ToastError "Please connect to the voice agent first")) w
  else
    run (try_catch
           (setIsRecording true ;;
            setCurrentTranscription EmptyString ;;
            ext f StartToast (toast (ToastSuccess "Recording started")) ;;
            ext f StartTimeout1
              (setTimeout (TranscriptionUpdate partialTranscription) 1000) ;;
            ext f StartTimeout2
              (setTimeout (TranscriptionUpdate fullTranscription) 2000))
           (toast (ToastError "Failed to start recording") ;;
            setIsRecording false)) w.

(** The user message built by handleStopRecording: 0.95 is 95/100. *)
Definition voiceUserMessage (s : State) (t : N) : ConversationMessage :=
  {| id := JS.toString t;
     type := user;
     content := JS.or_else (currentTranscription s) fullTranscription;
     timestamp := t;
     language := Some (Settings.language (voiceSettings s));
     confidence := Some (95 # 100)%Q |}.

Definition handleStopRecording (f : Faults) (w : World) : World :=
  let s := ui w in
  if negb (isRecording s) then w
  else
    run (try_catch
           (setIsRecording false ;;
            setIsProcessing true ;;
            t <- ext f StopDate Date_now ;;
            setConversation (fun prev => (prev ++ [voiceUserMessage s t])%list) ;;
            setCurrentTranscription EmptyString ;;
            ext f StopTimeout (setTimeout RecordingReply 2000))
           (toast (ToastError "Failed to process recording") ;;
            setIsProcessing false)) w.

Definition textUserMessage (s : State) (t : N) : ConversationMessage :=
  {| id := JS.toString t;
     type := user;
     content := textInput s;
     timestamp := t;
     language := None;
     confidence := None |}.

Definition handleTextSubmit (w : World) : World :=
  let s := ui w in
  if negb (JS.truthy (JS.trim (textInput s))) || negb (isConnected s) then w
  else
    run (t <- Date_now ;;
         let userMessage := textUserMessage s t in
         setConversation (fun prev => (prev ++ [userMessage])%list) ;;
         setTextInput EmptyString ;;
         setIsProcessing true ;;
         setTimeout (TextReply (content userMessage)) 1500) w.

Definition handleClearConversation (w : World) : World :=
  run (setConversation (fun _ => []) ;;
       toast (ToastSuccess "Conversation cleared")) w.

(** *** Timer callbacks *)

Definition recordingReplyContent : string :=
  "I'd be happy to help you with your account settings. Could you please specify what particular setting you'd like to modify or learn about?".

Definition dquote : string := String (ascii_of_N 34) EmptyString.

(** The template literal of the text reply. *)
Definition textReplyContent (userContent : string) : string :=
  "I understand you said: " ++ dquote ++ userContent ++ dquote
    ++ ". Let me help you with that.".

Definition agentMessage (t : N) (c : string) : ConversationMessage :=
  {| id := JS.toString (t + 1);
     type := agent;
     content := c;
     timestamp := t;
     language := None;
     confidence := None |}.

Definition fire (cb : Callback) : Eff unit :=
  match cb with
  | TranscriptionUpdate text => setCurrentTranscription text
  | RecordingReply =>
      t <- Date_now ;;
      setConversation (fun prev => (prev ++ [agentMessage t recordingReplyContent])%list) ;;
      setIsProcessing false ;;
      toast (ToastSuccess "Response generated")
  | TextReply userContent =>
      t <- Date_now ;;
      setConversation
        (fun prev => (prev ++ [agentMessage t (textReplyContent userContent)])%list) ;;
      setIsProcessing false
  end.

(** *** The passing of time

    The timers that are due fire in the order of their due time, timers
    with the same due time in the order in which they were set; a
    callback sees the clock at the due time of its timer.  No callback
    sets a timer. *)
Fixpoint insertTimer (t : Timer) (l : list Timer) : list Timer :=
  match l with
  | [] => [t]
  | x :: r => if due t <? due x then t :: l else x :: insertTimer t r
  end.

Definition sortTimers (l : list Timer) : list Timer :=
  fold_left (fun acc t => insertTimer t acc) l [].

Definition fireTimer (w : World) (t : Timer) : World :=
  run (fire (callback t))
    {| ui := ui w; timers := timers w;
       now := N.max (now w) (due t); toasts := toasts w |}.

Definition elapse (dt : N) (w : World) : World :=
  let t := now w + dt in
  let dueNow := filter (fun x => due x <=? t) (timers w) in
  let later := filter (fun x => negb (due x <=? t)) (timers w) in
  let w1 :=
    fold_left fireTimer (sortTimers dueNow)
      {| ui := ui w; timers := later; now := now w; toasts := toasts w |} in
  {| ui := ui w1; timers := timers w1; now := t; toasts := toasts w1 |}.

(** *** What the rendered page lets the user do

    A control that is not rendered or is disabled delivers no event. *)
Inductive Event :=
| ClickConnect (f : Faults)
| ClickDisconnect
| ClickRecord (f : Faults)
| ClickMute
| ClickSettings
| ClickHistory
| ChangeText (value : string)
| PressEnter
| ClickSend
| SelectLanguage (value : string)
| SelectSttModel (value : string)
| SelectTtsModel (value : string)
| SelectLlmModel (value : string)
| CloseSettings
| SaveSettings
| Elapse (dt : N).

Definition enabled (e : Event) (s : State) : bool :=
  match e with
  | ClickConnect _ => negb (isConnected s)
  | ClickDisconnect => isConnected s
  | ClickRecord _ => isConnected s && negb (isProcessing s)
  | ClickMute => isConnected s
  | ClickSettings => isConnected s
  | ClickHistory => isConnected s
  | ChangeText _ => negb (negb (isConnected s) || isProcessing s)
  | PressEnter => negb (negb (isConnected s) || isProcessing s)
  | ClickSend =>
      negb (negb (JS.truthy (JS.trim (textInput s)))
            || negb (isConnected s) || isProcessing s)
  | SelectLanguage _ | SelectSttModel _ | SelectTtsModel _
  | SelectLlmModel _ | CloseSettings | SaveSettings => settingsOpen s
  | Elapse _ => true
  end.

Definition handle (e : Event) (w : World) : World :=
  let s := ui w in
  match e with
  | ClickConnect f => handleConnect f w
  | ClickDisconnect => handleDisconnect w
  | ClickRecord f =>
      if isRecording s then handleStopRecording f w
      else handleStartRecording f w
  | ClickMute => run (setIsMuted (negb (isMuted s))) w
  | ClickSettings => run (setSettingsOpen true) w
  | ClickHistory => handleClearConversation w
  | ChangeText v => run (setTextInput v) w
  | PressEnter => handleTextSubmit w
  | ClickSend => handleTextSubmit w
  | SelectLanguage v =>
      run (setVoiceSettings (fun prev =>
             Settings.mk v (Settings.sttModel prev)
               (Settings.ttsModel prev) (Settings.llmModel prev))) w
  | SelectSttModel v =>
      run (setVoiceSettings (fun prev =>
             Settings.mk (Settings.language prev) v
               (Settings.ttsModel prev) (Settings.llmModel prev))) w
  | SelectTtsModel v =>
      run (setVoiceSettings (fun prev =>
             Settings.mk (Settings.language prev) (Settings.sttModel prev)
               v (Settings.llmModel prev))) w
  | SelectLlmModel v =>
      run (setVoiceSettings (fun prev =>
             Settings.mk (Settings.language prev) (Settings.sttModel prev)
               (Settings.ttsModel prev) v)) w
  | CloseSettings => run (setSettingsOpen false) w
  | SaveSettings =>
      run (setSettingsOpen false ;;
           toast (ToastSuccess "Settings updated")) w
  | Elapse dt => elapse dt w
  end.

Definition step (w : World) (e : Event) : World :=
  if enabled e (ui w) then handle e w else w.

Definition steps (es : list Event) (w : World) : World :=
  fold_left step es w.

(** *** Vocabulary of the statements *)

(** A timer whose callback appends an agent message. *)
Definition isReply (t : Timer) : bool :=
  match callback t with
  | TranscriptionUpdate _ => false
  | RecordingReply | TextReply _ => true
  end.

Definition pendingReplies (w : World) : nat :=
  List.length (filter isReply (timers w)).

(** The message a callback appends when it runs at clock [t]. *)
Definition replyOf (t : N) (cb : Callback) : list ConversationMessage :=
  match cb with
  | TranscriptionUpdate _ => []
  | RecordingReply => [agentMessage t recordingReplyContent]
  | TextReply c => [agentMessage t (textReplyContent c)]
  end.

(** The messages appended by firing [l] in order from clock [t0]. *)
Fixpoint replies (t0 : N) (l : list Timer) : list ConversationMessage :=
  match l with
  | [] => []
  | x :: r =>
      let t := N.max t0 (due x) in
      (replyOf t (callback x) ++ replies t r)%list
  end.

(** The timers that fire when [dt] passes, in firing order. *)
Definition dueTimers (dt : N) (w : World) : list Timer :=
  sortTimers (filter (fun x => due x <=? now w + dt) (timers w)).

(** A transcription fragment arrives: the body of the callbacks that
    handleStartRecording schedules, for any text. *)
Definition appendInput (fragment : string) (w : World) : World :=
  run (fire (TranscriptionUpdate fragment)) w.

(** A capture: handleStartRecording, then the fragments in order. *)
Definition capture (fs : list string) (w : World) : World :=
  fold_left (fun w' fr => appendInput fr w') fs (handleStartRecording noFaults w).

(** The content of the newest message. *)
Definition payload (w : World) : option string :=
  last (map (fun m => Some (content m)) (conversation (ui w))) None.

Definition newest (w : World) : option ConversationMessage :=
  last (map Some (conversation (ui w))) None.


(** One reply is pending while the processing flag is set, none
    otherwise. *)
Definition oneReplyInFlight (w : World) : Prop :=
  pendingReplies w = (if isProcessing (ui w) then 1 else 0)%nat.

(** Neither recording nor processing. *)
Definition idle (s : State) : bool :=
  negb (isRecording s) && negb (isProcessing s).

Definition isDisconnect (e : Event) : bool :=
  match e with ClickDisconnect => true | _ => false end.

End VoiceAgent.

(** ** The recordings grid *)

Module CallRecordings.

Inductive Status := completed | failed | processing.
Inductive Sentiment := positive | negative | neutral.

(** [interface CallRecording]; [duration] is a count of seconds. *)
Record CallRecording := mkRecording {
  id : string;
  timestamp : N;
  duration : N;
  language : string;
  status : Status;
  participantId : string;
  audioUrl : option string;
  transcription : option string;
  sentiment : option Sentiment
}.

Record State := mkState {
  recordings : list CallRecording;
  loading : bool;
  playingId : option string;
  selectedRecording : option CallRecording;
  dialogOpen : bool;
  filterLanguage : string;
  searchTerm : string
}.

Definition setRecordings (rs : list CallRecording) (s : State) : State :=
  mkState rs (loading s) (playingId s) (selectedRecording s)
    (dialogOpen s) (filterLanguage s) (searchTerm s).

(** [recordings.filter(r => r.id !== id)], on the list of the current
    render. *)
Definition handleDelete (id0 : string) (s : State) : State :=
  setRecordings
    (filter (fun r => negb (String.eqb (id r) id0)) (recordings s)) s.

(** [l] is [m] with some elements left out: the elements of [l] are
    elements of [m], themselves unchanged and in the order of [m]. *)
Inductive Subsequence {A : Type} : list A -> list A -> Prop :=
| sub_nil : Subsequence [] []
| sub_keep x l m : Subsequence l m -> Subsequence (x :: l) (x :: m)
| sub_drop x l m : Subsequence l m -> Subsequence l (x :: m).

Definition countId (id0 : string) (rs : list CallRecording) : nat :=
  List.length (filter (fun r => String.eqb (id r) id0) rs).

End CallRecordings.

(** ** The model-management panel *)

Module ModelManagement.

Inductive ModelType := stt | tts | llm | embedding.
Inductive Status := active | inactive | error.

(** The values found in a [config: Record<string, any>]. *)
Inductive ConfigValue :=
| VString (s : string)
| VNumber (q : Q)
| VBoolean (b : bool).

(** [interface ModelConfig]; [config] keeps the keys in insertion order. *)
Record ModelConfig := mkModel {
  id : string;
  name : string;
  type : ModelType;
  provider : string;
  model : string;
  status : Status;
  config : list (string * ConfigValue);
  lastUpdated : N
}.

Record State := mkState {
  models : list ModelConfig;
  tabValue : N;
  editingModel : option ModelConfig;
  dialogOpen : bool;
  testingModel : option string
}.

Inductive Toast :=
| ToastSuccess (msg : string)
| ToastError (msg : string).

Record World := mkWorld {
  ui : State;
  now : N;
  toasts : list Toast
}.

(** The list installed by the mount effect at time [t]. *)
Definition mockModels (t : N) : list ModelConfig :=
  [ {| id := "stt-1"; name := "Whisper Large V3"; type := stt;
       provider := "Groq"; model := "whisper-large-v3"; status := active;
       config := [("language", VString "en"); ("temperature", VNumber 0);
                  ("response_format", VString "text")];
       lastUpdated := t |};
    {| id := "tts-1"; name := "Simba Multilingual"; type := tts;
       provider := "Speechify"; model := "simba-multilingual"; status := active;
       config := [("voice_id", VString "default"); ("speed", VNumber 1);
                  ("pitch", VNumber 1)];
       lastUpdated := t |};
    {| id := "llm-1"; name := "Llama 3 70B"; type := llm;
       provider := "Groq"; model := "llama3-70b-8192"; status := active;
       config := [("temperature", VNumber (7 # 10)); ("max_tokens", VNumber 4096);
                  ("top_p", VNumber (9 # 10))];
       lastUpdated := t |};
    {| id := "emb-1"; name := "MiniLM L6 V2"; type := embedding;
       provider := "HuggingFace";
       model := "sentence-transformers/all-MiniLM-L6-v2"; status := active;
       config := [("normalize_embeddings", VBoolean true);
                  ("batch_size", VNumber 32)];
       lastUpdated := t |} ].

(** [{ ...editingModel, lastUpdated: new Date() }] *)
Definition touched (em : ModelConfig) (t : N) : ModelConfig :=
  mkModel (id em) (name em) (type em) (provider em) (model em)
    (status em) (config em) t.

Definition handleEditModel (m : ModelConfig) (w : World) : World :=
  let s := ui w in
  {| ui := mkState (models s) (tabValue s) (Some m) true (testingModel s);
     now := now w; toasts := toasts w |}.

Definition handleSaveModel (w : World) : World :=
  let s := ui w in
  match editingModel s with
  | None => w
  | Some em =>
      {| ui :=
           mkState
             (map (fun m => if String.eqb (id m) (id em)
                            then touched em (now w) else m) (models s))
             (tabValue s) None false (testingModel s);
         now := now w;
         toasts := toasts w
                   ++ [ToastSuccess "Model configuration updated successfully"] |}
  end.

(** [{ ...cfg, [k]: v }]: an existing key keeps its place and takes the
    new value, a new key goes last. *)
Definition setKey (k : string) (v : ConfigValue)
    (cfg : list (string * ConfigValue)) : list (string * ConfigValue) :=
  if existsb (fun kv => String.eqb (fst kv) k) cfg
  then map (fun kv => if String.eqb (fst kv) k then (fst kv, v) else kv) cfg
  else (cfg ++ [(k, v)])%list.

(** The onChange of the Voice ID text field, which the dialog shows for a
    model of type tts. *)
Definition changeVoiceId (v : string) (w : World) : World :=
  let s := ui w in
  match editingModel s with
  | Some em =>
      match type em with
      | tts =>
          {| ui :=
               mkState (models s) (tabValue s)
                 (Some (mkModel (id em) (name em) (type em) (provider em)
                          (model em) (status em)
                          (setKey "voice_id" (VString v) (config em))
                          (lastUpdated em)))
                 (dialogOpen s) (testingModel s);
             now := now w; toasts := toasts w |}
      | _ => w
      end
  | None => w
  end.

(** The panel once the mount effect has run at time [t]. *)
Definition mounted (t : N) : World :=
  {| ui := mkState (mockModels t) 0 None false None;
     now := t; toasts := [] |}.

(** Whether some listed model has the id of [em]. *)
Definition knownId (ms : list ModelConfig) (em : ModelConfig) : bool :=
  existsb (fun m => String.eqb (id m) (id em)) ms.

End ModelManagement.

(** ** Scenarios: states reached from the freshly mounted page *)

Module Scenarios.
Import VoiceAgent.

(** Connected, a recording stopped after 2.5 s: the reply is pending. *)
Definition processingVoice : World :=
  steps [ClickConnect noFaults; ClickRecord noFaults; Elapse 2500;
         ClickRecord noFaults] (initialWorld 0).

(** Connected and recording, nothing transcribed yet. *)
Definition recording : World :=
  steps [ClickConnect noFaults; ClickRecord noFaults] (initialWorld 0).

(** Recording, with the settings dialog open. *)
Definition recordingWithSettings : World :=
  steps [ClickConnect noFaults; ClickRecord noFaults; ClickSettings]
    (initialWorld 0).

(** Connected, with a typed message ready to send. *)
Definition typed : World :=
  steps [ClickConnect noFaults; ChangeText "book a flight"] (initialWorld 0).

(** Connected, only blanks typed. *)
Definition typedBlank : World :=
  steps [ClickConnect noFaults; ChangeText "   "] (initialWorld 0).

(** A text sent, then a disconnect and a reconnect, then a second text. *)
Definition twoPending : World :=
  steps [ClickConnect noFaults; ChangeText "one"; ClickSend;
         ClickDisconnect; ClickConnect noFaults;
         ChangeText "two"; ClickSend] (initialWorld 0).




Import ModelManagement.

(** The listed TTS model, opened in the dialog and given a voice id that
    no backend knows. *)
Definition simba : ModelConfig :=
  {| id := "tts-1"; name := "Simba Multilingual"; type := tts;
     provider := "Speechify"; model := "simba-multilingual"; status := active;
     config := [("voice_id", VString "default"); ("speed", VNumber 1);
                ("pitch", VNumber 1)];
     lastUpdated := 0 |}.


Definition savingBogus : ModelManagement.World :=
  changeVoiceId "no-such-voice" (handleEditModel simba (mounted 0)).

Import CallRecordings.

Definition rec (i : string) (lang : string) : CallRecording :=
  {| CallRecordings.id := i; CallRecordings.timestamp := 0; duration := 60;
     CallRecordings.language := lang; CallRecordings.status := completed;
     participantId := "user_123"; audioUrl := None; transcription := None;
     sentiment := None |}.

Definition grid : CallRecordings.State :=
  {| recordings := [rec "1" "English"; rec "2" "Hindi"; rec "1" "Bengali";
                    rec "3" "English"];
     loading := false; playingId := None; selectedRecording := None;
     CallRecordings.dialogOpen := false; filterLanguage := "all";
     searchTerm := EmptyString |}.

End Scenarios.

(** ** Vocabulary for the sessions of the voice-agent page *)

Module Session.
Import VoiceAgent.

(** The world that a sequence of events reaches from the page mounted at
    clock [t0]. *)
Definition reached (es : list Event) (t0 : N) : World :=
  steps es (initialWorld t0).

(** [l'] is [l] with messages added at the end. *)
Definition extends (l' l : list ConversationMessage) : Prop :=
  exists tail, l' = (l ++ tail)%list.

(** Every pending timer is due between now and two seconds from now. *)
Definition timersInWindow (w : World) : bool :=
  forallb (fun t => (now w <=? due t) && (due t <=? now w + 2000)) (timers w).

(** While the processing flag is set some reply is pending. *)
Definition processingAwaitsReply (w : World) : bool :=
  implb (isProcessing (ui w)) (existsb isReply (timers w)).

(** The shapes of the messages the handlers build. *)
Definition wellFormedMessage (m : ConversationMessage) : Prop :=
  match type m with
  | agent => confidence m = None /\ language m = None
  | user =>
      (confidence m = Some (95 # 100)%Q /\ language m <> None)
      \/ (confidence m = None /\ language m = None)
  end.

(** The events whose handlers replace the conversation. *)
Definition resetsConversation (e : Event) : bool :=
  match e with
  | ClickConnect _ | ClickHistory => true
  | _ => false
  end.

End Session.

(** ** The recordings grid: search, durations and playback *)

Module RecordingsView.
Import CallRecordings.

(** [toLowerCase] on the code units below 256: the letters A to Z and the
    accented capitals from U+00C0 to U+00DE, the multiplication sign
    U+00D7 apart, move up by 32; every other unit stays. *)
Definition toLowerCaseUnit (c : ascii) : ascii :=
  let n := N_of_ascii c in
  if ((65 <=? n) && (n <=? 90))
     || ((192 <=? n) && (n <=? 222) && negb (n =? 215))
  then ascii_of_N (n + 32)
  else c.

Fixpoint toLowerCase (s : string) : string :=
  match s with
  | EmptyString => EmptyString
  | String c r => String (toLowerCaseUnit c) (toLowerCase r)
  end.

(** [s.startsWith(sub)] *)
Fixpoint startsWith (s sub : string) {struct sub} : bool :=
  match sub with
  | EmptyString => true
  | String a sub' =>
      match s with
      | EmptyString => false
      | String b s' => Ascii.eqb a b && startsWith s' sub'
      end
  end.

(** [s.includes(sub)]: [sub] starts at some position of [s]. *)
Fixpoint includes (s sub : string) : bool :=
  startsWith s sub
  || match s with
     | EmptyString => false
     | String _ r => includes r sub
     end.

Definition matchesLanguage (s : State) (r : CallRecording) : bool :=
  String.eqb (filterLanguage s) "all"
  || String.eqb (language r) (filterLanguage s).

(** [a || b?.includes(..)]: a recording without transcription yields
    undefined on the right, which the filter takes as false. *)
Definition matchesSearch (s : State) (r : CallRecording) : bool :=
  includes (toLowerCase (participantId r)) (toLowerCase (searchTerm s))
  || match transcription r with
     | Some t => includes (toLowerCase t) (toLowerCase (searchTerm s))
     | None => false
     end.

Definition filteredRecordings (s : State) : list CallRecording :=
  filter (fun r => matchesLanguage s r && matchesSearch s r) (recordings s).

Definition setSearchTerm (t : string) (s : State) : State :=
  mkState (recordings s) (loading s) (playingId s) (selectedRecording s)
    (dialogOpen s) (filterLanguage s) t.

Definition setFilterLanguage (l : string) (s : State) : State :=
  mkState (recordings s) (loading s) (playingId s) (selectedRecording s)
    (dialogOpen s) l (searchTerm s).

Definition setPlayingId (p : option string) (s : State) : State :=
  mkState (recordings s) (loading s) p (selectedRecording s)
    (dialogOpen s) (filterLanguage s) (searchTerm s).

(** [s.padStart(target, pad)] for a one-character pad. *)
Fixpoint repeatUnit (n : nat) (c : ascii) : string :=
  match n with
  | O => EmptyString
  | S k => String c (repeatUnit k c)
  end.

Definition padStart (target : nat) (pad : ascii) (s : string) : string :=
  repeatUnit (target - String.length s) pad ++ s.

(** [Number.MAX_SAFE_INTEGER], 2^53 - 1. *)
Definition maxSafeInteger : N := 9007199254740991.

(** [formatDuration], for a whole number of seconds up to
    [Number.MAX_SAFE_INTEGER].  There the double arithmetic of the source
    is exact: the quotient by 60 is below 2^48, so its rounding error is
    at most 1/64, less than the 1/60 that separates a quotient which is
    not whole from the next whole number, and [Math.floor] gives the
    whole quotient; the remainder is exact and the template prints whole
    numbers of that size in plain decimal.  Beyond it doubles round and
    the model gives no answer: [None]. *)
Definition formatDuration (seconds : N) : option string :=
  if seconds <=? maxSafeInteger then
    let mins := seconds / 60 in
    let secs := seconds mod 60 in
    Some (JS.toString mins ++ ":" ++ padStart 2 "0" (JS.toString secs))
  else None.

(** *** Playback

    The page with the timers that handlePlay has set: each one runs
    [setPlayingId(null)] when it is due, so a due time is all there is to
    a timer. *)
Record Player := mkPlayer {
  page : State;
  stops : list N;
  clock : N
}.

Definition isPlaying (id0 : string) (s : State) : bool :=
  match playingId s with
  | Some p => String.eqb p id0
  | None => false
  end.

Definition handlePlay (id0 : string) (p : Player) : Player :=
  if isPlaying id0 (page p) then
    mkPlayer (setPlayingId None (page p)) (stops p) (clock p)
  else
    mkPlayer (setPlayingId (Some id0) (page p))
      (stops p ++ [clock p + 3000]) (clock p).

(** [dt] milliseconds pass: the timers that are due fire. *)
Definition wait (dt : N) (p : Player) : Player :=
  let t := clock p + dt in
  mkPlayer
    (fold_left (fun s _ => setPlayingId None s)
       (filter (fun d => d <=? t) (stops p)) (page p))
    (filter (fun d => negb (d <=? t)) (stops p))
    t.

Inductive PlayerEvent :=
| Play (id0 : string)
| Wait (dt : N).

Definition playerStep (p : Player) (e : PlayerEvent) : Player :=
  match e with
  | Play id0 => handlePlay id0 p
  | Wait dt => wait dt p
  end.

(** The grid at clock [t0], nothing playing, no timer set. *)
Definition quiet (s : State) (t0 : N) : Player :=
  mkPlayer (setPlayingId None s) [] t0.

End RecordingsView.

(** ** The model-management panel: tabs, configuration keys and tests *)

Module ModelPanel.
Import ModelManagement.

(** [model.type === type] *)
Definition typeEqb (a b : ModelType) : bool :=
  match a, b with
  | stt, stt | tts, tts | llm, llm | embedding, embedding => true
  | _, _ => false
  end.

Definition filterModelsByType (ty : ModelType) (w : World) : list ModelConfig :=
  filter (fun m => typeEqb (type m) ty) (models (ui w)).

(** [cfg[k]]; [None] stands for undefined. *)
Definition getKey (k : string) (cfg : list (string * ConfigValue))
    : option ConfigValue :=
  option_map snd (find (fun kv => String.eqb (fst kv) k) cfg).

(** The Cancel button and the closing of the dialog. *)
Definition closeDialog (w : World) : World :=
  let s := ui w in
  {| ui := mkState (models s) (tabValue s) (editingModel s) false
             (testingModel s);
     now := now w; toasts := toasts w |}.

Definition setTestingModel (t : option string) (w : World) : World :=
  let s := ui w in
  {| ui := mkState (models s) (tabValue s) (editingModel s) (dialogOpen s) t;
     now := now w; toasts := toasts w |}.

(** *** Tests

    The panel with the timers that handleTestModel has set; each one ends
    the test indicator and shows a toast when it is due. *)
Record Bench := mkBench {
  panel : World;
  ends : list N
}.

Definition handleTestModel (modelId : string) (b : Bench) : Bench :=
  mkBench (setTestingModel (Some modelId) (panel b))
    (ends b ++ [now (panel b) + 3000]).

(** The callback of handleTestModel. *)
Definition finishTest (w : World) : World :=
  let w1 := setTestingModel None w in
  {| ui := ui w1; now := now w1;
     toasts := toasts w1 ++ [ToastSuccess "Model test completed successfully"] |}.

(** [disabled={testingModel === model.id}] *)
Definition testDisabled (modelId : string) (w : World) : bool :=
  match testingModel (ui w) with
  | Some t => String.eqb t modelId
  | None => false
  end.

Definition pass (dt : N) (b : Bench) : Bench :=
  let t := now (panel b) + dt in
  let w1 :=
    fold_left (fun w _ => finishTest w)
      (filter (fun d => d <=? t) (ends b)) (panel b) in
  mkBench {| ui := ui w1; now := t; toasts := toasts w1 |}
    (filter (fun d => negb (d <=? t)) (ends b)).

Inductive BenchEvent :=
| ClickTest (modelId : string)
| Pass (dt : N).

Definition benchStep (b : Bench) (e : BenchEvent) : Bench :=
  match e with
  | ClickTest modelId =>
      if testDisabled modelId (panel b) then b else handleTestModel modelId b
  | Pass dt => pass dt b
  end.

(** The panel mounted at clock [t0], no test started. *)
Definition idleBench (t0 : N) : Bench := mkBench (mounted t0) [].

End ModelPanel.

(** ** The API client: the socket address and the interceptors *)

Module Api.

Fixpoint dropUnits (n : nat) (s : string) : string :=
  match n, s with
  | O, _ => s
  | S k, EmptyString => EmptyString
  | S k, String _ r => dropUnits k r
  end.

(** [s.replace(pattern, replacement)] with a string pattern: the first
    occurrence is replaced, the rest is kept.  The replacements used
    here hold no dollar sign, so they are taken as they are. *)
Fixpoint replace (s pattern replacement : string) : string :=
  if RecordingsView.startsWith s pattern
  then replacement ++ dropUnits (String.length pattern) s
  else match s with
       | EmptyString => EmptyString
       | String c r => String c (replace r pattern replacement)
       end.

(** [process.env.REACT_APP_API_URL || 'http://localhost:8000/api'] *)
Definition apiBaseUrl (env : option string) : string :=
  match env with
  | Some u => JS.or_else u "http://localhost:8000/api"
  | None => "http://localhost:8000/api"
  end.

(** The address that createWebSocketConnection opens. *)
Definition wsUrl (base : string) : string :=
  replace (replace base "http" "ws") "/api" "/ws/voice".

(** [localStorage] and [window.location.href]. *)
Record Browser := mkBrowser {
  localStorage : list (string * string);
  href : string
}.

Definition getItem (k : string) (b : Browser) : option string :=
  option_map snd (find (fun kv => String.eqb (fst kv) k) (localStorage b)).

Definition removeItem (k : string) (b : Browser) : Browser :=
  mkBrowser (filter (fun kv => negb (String.eqb (fst kv) k)) (localStorage b))
    (href b).

(** [headers[k] = v] *)
Definition assign (k v : string) (hs : list (string * string))
    : list (string * string) :=
  if existsb (fun kv => String.eqb (fst kv) k) hs
  then map (fun kv => if String.eqb (fst kv) k then (fst kv, v) else kv) hs
  else (hs ++ [(k, v)])%list.

Definition header (k : string) (hs : list (string * string)) : option string :=
  option_map snd (find (fun kv => String.eqb (fst kv) k) hs).

(** The request interceptor, on the headers of the request. *)
Definition requestInterceptor (b : Browser) (headers : list (string * string))
    : list (string * string) :=
  match getItem "auth_token" b with
  | Some token =>
      if JS.truthy token
      then assign "Authorization" ("Bearer " ++ token) headers
      else headers
  | None => headers
  end.

(** The error branch of the response interceptor; [status] is
    [error.response?.status], absent when there was no response.  The
    promise is rejected in every case. *)
Definition responseErrorInterceptor (status : option N) (b : Browser) : Browser :=
  match status with
  | Some 401 => mkBrowser (localStorage (removeItem "auth_token" b)) "/login"
  | _ => b
  end.

End Api.

(** ** The voice-agent page: throws outside the try blocks *)

Module Unguarded.
Import VoiceAgent.
Local Open Scope eff_scope.

(** The calls of handleTextSubmit that leave React.  No [try] surrounds
    them: when one throws, the handler stops there and the updates made
    before stay. *)
Inductive Site :=
| SubmitDate
| SubmitTimeout.

Definition noThrow : Site -> bool := fun _ => false.

Definition unguarded {A} (f : Site -> bool) (c : Site) (m : Eff A) : Eff A :=
  if f c then throw else m.

(** handleTextSubmit, with the calls that throw given by [f]. *)
Definition handleTextSubmit (f : Site -> bool) (w : World) : World :=
  let s := ui w in
  if negb (JS.truthy (JS.trim (textInput s))) || negb (isConnected s) then w
  else
    run (t <- unguarded f SubmitDate Date_now ;;
         let userMessage := textUserMessage s t in
         setConversation (fun prev => (prev ++ [userMessage])%list) ;;
         setTextInput EmptyString ;;
         setIsProcessing true ;;
         unguarded f SubmitTimeout
           (setTimeout (TextReply (content userMessage)) 1500)) w.


End Unguarded.

(** ** The model-management panel: what its controls can do *)

Module PanelRuns.
Import ModelManagement ModelPanel.






End PanelRuns.

(** * Properties *)

(** ** trim *)

Section Trim.
Import JS.

Lemma trimStart_whitespaceOnly (s : string) :
  whitespaceOnly s = true -> trimStart s = EmptyString.
Proof.
  induction s as [|c r IH]; simpl; [reflexivity|].
  intros H. apply andb_true_iff in H as [Hc Hr].
  rewrite Hc. now apply IH.
Qed.

Lemma trim_whitespaceOnly (s : string) :
  whitespaceOnly s = true -> trim s = EmptyString.
Proof.
  intros H. unfold trim. now rewrite trimStart_whitespaceOnly.
Qed.

Lemma trimEnd_empty (s : string) :
  trimEnd s = EmptyString -> whitespaceOnly s = true.
Proof.
  induction s as [|c r IH]; simpl; [reflexivity|].
  destruct (trimEnd r) eqn:E.
  - destruct (isWhiteSpace c); [intros _; now rewrite IH | discriminate].
  - discriminate.
Qed.

Lemma trim_empty (s : string) :
  trim s = EmptyString -> whitespaceOnly s = true.
Proof.
  unfold trim. induction s as [|c r IH]; simpl; [reflexivity|].
  destruct (isWhiteSpace c) eqn:Hc; simpl.
  - exact IH.
  - rewrite Hc. destruct (trimEnd r); discriminate.
Qed.

(** [!s.trim()] holds exactly for the strings made of white space. *)
Lemma not_trim_iff (s : string) :
  negb (truthy (trim s)) = whitespaceOnly s.
Proof.
  destruct (whitespaceOnly s) eqn:W.
  - now rewrite trim_whitespaceOnly.
  - destruct (trim s) eqn:T; [|reflexivity].
    apply trim_empty in T. congruence.
Qed.

End Trim.

(** ** The recordings grid *)

Section Recordings.
Import CallRecordings.

Lemma Subsequence_filter {A} (p : A -> bool) (l : list A) :
  Subsequence (filter p l) l.
Proof.
  induction l as [|x l IH]; simpl; [constructor|].
  destruct (p x); constructor; exact IH.
Qed.

Lemma filter_all {A} (p : A -> bool) (l : list A) :
  (forall x, In x l -> p x = true) -> filter p l = l.
Proof.
  induction l as [|x l IH]; simpl; intros H; [reflexivity|].
  rewrite (H x (or_introl eq_refl)). f_equal. apply IH.
  intros y Hy. apply H. now right.
Qed.

Lemma filter_split_length {A} (p : A -> bool) (l : list A) :
  (List.length (filter (fun x => negb (p x)) l)
   + List.length (filter p l) = List.length l)%nat.
Proof.
  induction l as [|x l IH]; simpl; [reflexivity|].
  destruct (p x); simpl; lia.
Qed.

(** C10. handleDelete keeps, in their order and unchanged, exactly the
    recordings whose id differs from the given one: the new list is a
    subsequence of the old one, none of its members has the id, every
    recording with another id is still there, the number removed is the
    number of recordings with the id, the other cells of the state are
    untouched, and when no recording has the id the state is the same. *)
Theorem handleDelete_removes_exactly (id0 : string) (s : State) :
  let s' := handleDelete id0 s in
  Subsequence (recordings s') (recordings s)
  /\ (forall r, In r (recordings s') -> id r <> id0)
  /\ (forall r, In r (recordings s) -> id r <> id0 -> In r (recordings s'))
  /\ (List.length (recordings s') + countId id0 (recordings s)
      = List.length (recordings s))%nat
  /\ (loading s', playingId s', selectedRecording s', dialogOpen s',
      filterLanguage s', searchTerm s')
     = (loading s, playingId s, selectedRecording s, dialogOpen s,
        filterLanguage s, searchTerm s)
  /\ ((forall r, In r (recordings s) -> id r <> id0) -> s' = s).
Proof.
  destruct s as [rs ld pl sel dlg fl st]. cbn.
  repeat split.
  - apply Subsequence_filter.
  - intros r Hr. apply filter_In in Hr as [_ Hr].
    apply negb_true_iff, String.eqb_neq in Hr. exact Hr.
  - intros r Hin Hne. apply filter_In. split; [exact Hin|].
    apply negb_true_iff, String.eqb_neq. exact Hne.
  - unfold countId. apply filter_split_length.
  - intros H. unfold handleDelete, setRecordings. cbn. f_equal.
    apply filter_all. intros r Hr.
    apply negb_true_iff, String.eqb_neq. now apply H.
Qed.

Lemma handleDelete_removes_exactly_witness :
  recordings (handleDelete "1" Scenarios.grid)
    = [Scenarios.rec "2" "Hindi"; Scenarios.rec "3" "English"]
  /\ handleDelete "7" Scenarios.grid = Scenarios.grid.
Proof.
  split; [reflexivity|].
  apply (handleDelete_removes_exactly "7" Scenarios.grid).
  intros r Hr. cbn in Hr.
  repeat (destruct Hr as [<-|Hr]; [cbn; discriminate|]). contradiction.
Defined.

End Recordings.

(** ** The voice-agent page: single handlers *)

Section Handlers.
Import VoiceAgent.

(** The guard of handleTextSubmit. *)
Lemma handleTextSubmit_rejected (w : World) :
  JS.whitespaceOnly (textInput (ui w)) = true \/ isConnected (ui w) = false ->
  handleTextSubmit w = w.
Proof.
  intros H. unfold handleTextSubmit. cbv zeta. rewrite not_trim_iff.
  destruct H as [-> | ->]; [reflexivity|].
  now rewrite orb_true_r.
Qed.

(** C9. With a text input that is empty or all white space, or with the
    session not connected, handleTextSubmit returns at its guard: the
    whole world is the one before (no message appended, text input not
    cleared, processing flag not set, no timer set), and so it is when
    the Enter key or the send button delivers the event. *)
Theorem handleTextSubmit_guard (w : World) :
  JS.whitespaceOnly (textInput (ui w)) = true \/ isConnected (ui w) = false ->
  handleTextSubmit w = w
  /\ step w PressEnter = w
  /\ step w ClickSend = w.
Proof.
  intros H. pose proof (handleTextSubmit_rejected w H) as G.
  repeat split; [exact G| |]; unfold step;
    match goal with |- (if ?b then _ else _) = _ => destruct b end;
    try reflexivity; exact G.
Qed.

Lemma handleTextSubmit_guard_witness :
  handleTextSubmit Scenarios.typedBlank = Scenarios.typedBlank
  /\ step Scenarios.typedBlank PressEnter = Scenarios.typedBlank
  /\ step Scenarios.typedBlank ClickSend = Scenarios.typedBlank.
Proof.
  apply (handleTextSubmit_guard Scenarios.typedBlank).
  left. reflexivity.
Defined.

(** What a submitted text leaves behind. *)
Lemma handleTextSubmit_accepted (w : World) :
  JS.whitespaceOnly (textInput (ui w)) = false ->
  isConnected (ui w) = true ->
  handleTextSubmit w
  = {| ui := mkState true (isRecording (ui w)) (isMuted (ui w))
               (conversation (ui w) ++ [textUserMessage (ui w) (now w)])
               (currentTranscription (ui w)) true (settingsOpen (ui w))
               EmptyString (voiceSettings (ui w));
       timers := timers w ++ [mkTimer (now w + 1500) (TextReply (textInput (ui w)))];
       now := now w;
       toasts := toasts w |}.
Proof.
  intros W C. unfold handleTextSubmit. cbv zeta.
  rewrite not_trim_iff, W, C. cbn. rewrite C. reflexivity.
Qed.

(** C4, as the code has it. A submitted text becomes a user message whose
    content is the text input as typed, not trimmed, and which carries no
    confidence and no language; the transcription cell is not touched
    and no transcription timer is set, only the reply timer, whose reply
    quotes the text. *)
Theorem handleTextSubmit_verbatim_no_confidence (w : World) :
  JS.whitespaceOnly (textInput (ui w)) = false ->
  isConnected (ui w) = true ->
  exists m,
    conversation (ui (handleTextSubmit w)) = (conversation (ui w) ++ [m])%list
    /\ type m = user
    /\ content m = textInput (ui w)
    /\ confidence m = None
    /\ language m = None
    /\ currentTranscription (ui (handleTextSubmit w)) = currentTranscription (ui w)
    /\ timers (handleTextSubmit w)
       = (timers w ++ [mkTimer (now w + 1500) (TextReply (textInput (ui w)))])%list.
Proof.
  intros W C. rewrite (handleTextSubmit_accepted w W C).
  exists (textUserMessage (ui w) (now w)). repeat split.
Qed.

Lemma handleTextSubmit_verbatim_no_confidence_witness :
  exists m,
    conversation (ui (handleTextSubmit Scenarios.typed))
    = (conversation (ui Scenarios.typed) ++ [m])%list
    /\ type m = user
    /\ content m = "book a flight"
    /\ confidence m = None
    /\ language m = None
    /\ currentTranscription (ui (handleTextSubmit Scenarios.typed)) = EmptyString
    /\ timers (handleTextSubmit Scenarios.typed)
       = [mkTimer 1500 (TextReply "book a flight")].
Proof.
  apply (handleTextSubmit_verbatim_no_confidence Scenarios.typed);
    reflexivity.
Defined.

(** C4, as stated, fails: the message of a submitted text has no
    confidence at all, so its confidence is not 1.0. *)
Lemma text_confidence_counterexample :
  exists m,
    newest (handleTextSubmit Scenarios.typed) = Some m
    /\ content m = "book a flight"
    /\ confidence m = None
    /\ confidence m <> Some 1%Q.
Proof.
  eexists. split; [reflexivity|].
  repeat split; discriminate.
Qed.

End Handlers.

(** ** The voice-agent page: timers *)

Section Timers.
Import VoiceAgent.

Lemma fireTimer_frame (w : World) (t : Timer) :
  timers (fireTimer w t) = timers w
  /\ now (fireTimer w t) = N.max (now w) (due t)
  /\ conversation (ui (fireTimer w t))
     = (conversation (ui w) ++ replyOf (N.max (now w) (due t)) (callback t))%list
  /\ isConnected (ui (fireTimer w t)) = isConnected (ui w)
  /\ isRecording (ui (fireTimer w t)) = isRecording (ui w)
  /\ isProcessing (ui (fireTimer w t))
     = (if isReply t then false else isProcessing (ui w)).
Proof.
  destruct t as [d cb]. unfold fireTimer, isReply.
  destruct cb; cbn; repeat split; try reflexivity.
  now rewrite app_nil_r.
Qed.

Lemma fold_fireTimer_timers (l : list Timer) (w : World) :
  timers (fold_left fireTimer l w) = timers w.
Proof.
  revert w. induction l as [|x r IH]; intros w; cbn; [reflexivity|].
  rewrite IH. apply fireTimer_frame.
Qed.

Lemma fold_fireTimer_conversation (l : list Timer) (w : World) :
  conversation (ui (fold_left fireTimer l w))
  = (conversation (ui w) ++ replies (now w) l)%list.
Proof.
  revert w. induction l as [|x r IH]; intros w; cbn.
  - now rewrite app_nil_r.
  - rewrite IH.
    destruct (fireTimer_frame w x) as (_ & -> & -> & _).
    now rewrite <- app_assoc.
Qed.

Lemma fold_fireTimer_flags (l : list Timer) (w : World) :
  isConnected (ui (fold_left fireTimer l w)) = isConnected (ui w)
  /\ isRecording (ui (fold_left fireTimer l w)) = isRecording (ui w)
  /\ isProcessing (ui (fold_left fireTimer l w))
     = (if existsb isReply l then false else isProcessing (ui w)).
Proof.
  revert w. induction l as [|x r IH]; intros w; cbn; [repeat split|].
  destruct (IH (fireTimer w x)) as (-> & -> & ->).
  destruct (fireTimer_frame w x) as (_ & _ & _ & -> & -> & ->).
  repeat split.
  destruct (isReply x); cbn; [|reflexivity].
  now destruct (existsb isReply r).
Qed.

(** What the passing of [dt] does to the conversation: the replies of the
    timers that come due are appended, in firing order. *)
Lemma elapse_conversation (dt : N) (w : World) :
  conversation (ui (elapse dt w))
  = (conversation (ui w) ++ replies (now w) (dueTimers dt w))%list.
Proof.
  unfold elapse, dueTimers. cbn. now rewrite fold_fireTimer_conversation.
Qed.

Lemma elapse_timers (dt : N) (w : World) :
  timers (elapse dt w)
  = filter (fun x => negb (due x <=? now w + dt)) (timers w).
Proof.
  unfold elapse. cbn. now rewrite fold_fireTimer_timers.
Qed.

(** C1, as the code has it. handleDisconnect clears the flags and
    nothing else: it appends no message and every pending timer stays
    set.  When time passes afterwards, the replies of the timers that
    come due are appended to the conversation all the same; with the
    reply of a stopped recording as the only timer, that reply is
    appended once its two seconds are over. *)
Theorem handleDisconnect_cancels_no_timer (w : World) (dt : N) :
  (isConnected (ui (handleDisconnect w)), isRecording (ui (handleDisconnect w)),
   isProcessing (ui (handleDisconnect w))) = (false, false, false)
  /\ conversation (ui (handleDisconnect w)) = conversation (ui w)
  /\ timers (handleDisconnect w) = timers w
  /\ conversation (ui (elapse dt (handleDisconnect w)))
     = (conversation (ui w) ++ replies (now w) (dueTimers dt w))%list
  /\ (forall d,
        timers w = [mkTimer d RecordingReply] ->
        now w <= d -> d <= now w + dt ->
        conversation (ui (elapse dt (handleDisconnect w)))
        = (conversation (ui w) ++ [agentMessage d recordingReplyContent])%list).
Proof.
  assert (E : conversation (ui (elapse dt (handleDisconnect w)))
              = (conversation (ui w) ++ replies (now w) (dueTimers dt w))%list).
  { rewrite elapse_conversation. reflexivity. }
  repeat split; try exact E.
  intros d Ht Hlo Hhi. rewrite E. unfold dueTimers. rewrite Ht. cbn.
  apply N.leb_le in Hhi. rewrite Hhi. cbn.
  now rewrite (N.max_r _ _ Hlo).
Qed.

Lemma handleDisconnect_cancels_no_timer_witness :
  conversation (ui (elapse 2000 (handleDisconnect Scenarios.processingVoice)))
  = (conversation (ui Scenarios.processingVoice)
     ++ [agentMessage 4500 recordingReplyContent])%list.
Proof.
  apply (handleDisconnect_cancels_no_timer Scenarios.processingVoice 2000).
  - reflexivity.
  - vm_compute. discriminate.
  - vm_compute. discriminate.
Defined.

(** C1, as stated, fails: a recording is being processed, the user
    disconnects, and two seconds later the agent response of that
    exchange is appended to the conversation. *)
Lemma cancellation_counterexample :
  isProcessing (ui Scenarios.processingVoice) = true
  /\ isProcessing (ui (handleDisconnect Scenarios.processingVoice)) = false
  /\ isConnected (ui (handleDisconnect Scenarios.processingVoice)) = false
  /\ List.length (conversation (ui (handleDisconnect Scenarios.processingVoice)))
     = 2%nat
  /\ map type
       (conversation
          (ui (steps [ClickDisconnect; Elapse 2000] Scenarios.processingVoice)))
     = [agent; user; agent]
  /\ payload (steps [ClickDisconnect; Elapse 2000] Scenarios.processingVoice)
     = Some recordingReplyContent
  /\ conversation
       (ui (steps [ClickDisconnect; Elapse 2000] Scenarios.processingVoice))
     <> conversation (ui (steps [ClickDisconnect] Scenarios.processingVoice)).
Proof. repeat split. discriminate. Qed.

End Timers.

(** ** The voice-agent page: capture and settings *)

Section Capture.
Import VoiceAgent.

Lemma last_cons {A} (x : A) (l : list A) (d : A) :
  last (x :: l) d = last l x.
Proof.
  revert x d. induction l as [|y r IH]; intros x d; [reflexivity|].
  change (last (x :: y :: r) d) with (last (y :: r) d).
  now rewrite !IH.
Qed.

Lemma fold_appendInput (fs : list string) (w : World) :
  fold_left (fun w' fr => appendInput fr w') fs w
  = {| ui := mkState (isConnected (ui w)) (isRecording (ui w)) (isMuted (ui w))
               (conversation (ui w)) (last fs (currentTranscription (ui w)))
               (isProcessing (ui w)) (settingsOpen (ui w)) (textInput (ui w))
               (voiceSettings (ui w));
       timers := timers w; now := now w; toasts := toasts w |}.
Proof.
  revert w. induction fs as [|fr r IH]; intros w.
  - destruct w as [[] ? ? ?]. reflexivity.
  - cbn [fold_left]. rewrite IH, last_cons. reflexivity.
Qed.

(** The cells after a capture: the transcription is the last fragment. *)
Lemma capture_state (fs : list string) (w : World) :
  isConnected (ui w) = true ->
  ui (capture fs w)
  = mkState true true (isMuted (ui w)) (conversation (ui w)) (last fs EmptyString)
      (isProcessing (ui w)) (settingsOpen (ui w)) (textInput (ui w))
      (voiceSettings (ui w))
  /\ now (capture fs w) = now w.
Proof.
  intros C. unfold capture. rewrite fold_appendInput.
  unfold handleStartRecording. rewrite C. cbn. rewrite C. split; reflexivity.
Qed.

(** The two fragments that handleStartRecording schedules: with no other
    timer pending, the transcription is empty during the first second,
    the first fragment during the next, the second fragment afterwards. *)
Lemma recording_timeline (w : World) (dt : N) :
  isConnected (ui w) = true ->
  timers w = [] ->
  currentTranscription (ui (elapse dt (handleStartRecording noFaults w)))
  = (if dt <? 1000 then EmptyString
     else if dt <? 2000 then partialTranscription else fullTranscription).
Proof.
  intros C T. unfold handleStartRecording. rewrite C. cbn. rewrite T.
  unfold elapse. cbn.
  assert (L1 : (now w + 1000 <=? now w + dt) = negb (dt <? 1000)).
  { destruct (N.ltb_spec dt 1000); cbn;
      [apply N.leb_gt | apply N.leb_le]; lia. }
  assert (L2 : (now w + 2000 <=? now w + dt) = negb (dt <? 2000)).
  { destruct (N.ltb_spec dt 2000); cbn;
      [apply N.leb_gt | apply N.leb_le]; lia. }
  assert (L3 : (now w + 2000 <? now w + 1000) = false)
    by (apply N.ltb_ge; lia).
  rewrite L1, L2.
  destruct (N.ltb_spec dt 1000) as [A|A], (N.ltb_spec dt 2000) as [B|B];
    cbn; rewrite ?L3; cbn; try reflexivity; lia.
Qed.

(** C3, as the code has it. Between handleStartRecording and
    handleStopRecording every fragment replaces the transcription; the
    user message appended at the stop has as content the last fragment,
    or the fixed sentence when there was none or the last one is
    empty. *)
Theorem capture_payload_is_last_fragment (fs : list string) (w : World) :
  isConnected (ui w) = true ->
  exists m,
    conversation (ui (handleStopRecording noFaults (capture fs w)))
    = (conversation (ui w) ++ [m])%list
    /\ type m = user
    /\ content m = JS.or_else (last fs EmptyString) fullTranscription
    /\ isRecording (ui (handleStopRecording noFaults (capture fs w))) = false
    /\ isProcessing (ui (handleStopRecording noFaults (capture fs w))) = true.
Proof.
  intros C. destruct (capture_state fs w C) as [U T].
  exists (voiceUserMessage (ui (capture fs w)) (now w)).
  unfold handleStopRecording. rewrite U. cbn. rewrite U, T. cbn.
  repeat split.
Qed.

Lemma capture_payload_is_last_fragment_witness :
  exists m,
    conversation
      (ui (handleStopRecording noFaults
             (capture ["book "; "a "; "flight"] Scenarios.typed)))
    = (conversation (ui Scenarios.typed) ++ [m])%list
    /\ type m = user
    /\ content m = "flight"
    /\ isRecording
         (ui (handleStopRecording noFaults
                (capture ["book "; "a "; "flight"] Scenarios.typed))) = false
    /\ isProcessing
         (ui (handleStopRecording noFaults
                (capture ["book "; "a "; "flight"] Scenarios.typed))) = true.
Proof.
  apply (capture_payload_is_last_fragment
           ["book "; "a "; "flight"] Scenarios.typed).
  reflexivity.
Defined.

(** C3, as stated, fails: after both scheduled fragments have arrived the
    payload is the second fragment, not the two in a row; three fragments
    give the third; and with no fragment the payload is the fixed
    sentence, not the empty concatenation. *)
Lemma turn_buffer_counterexample :
  payload (steps [Elapse 2000; ClickRecord noFaults] Scenarios.recording)
  = Some fullTranscription
  /\ Some fullTranscription
     <> Some (String.concat EmptyString [partialTranscription; fullTranscription])
  /\ payload (handleStopRecording noFaults
                (capture ["book "; "a "; "flight"] Scenarios.typed))
     = Some "flight"
  /\ Some "flight" <> Some (String.concat EmptyString ["book "; "a "; "flight"])
  /\ payload (steps [ClickRecord noFaults] Scenarios.recording)
     = Some fullTranscription
  /\ Some fullTranscription <> Some (String.concat EmptyString []).
Proof. repeat split; discriminate. Qed.

(** C5, as the code has it. A choice in the settings dialog is written
    to the settings cell at once, whatever the recording and processing
    flags; nothing else changes, so the messages already in the
    conversation keep the language they were given.  The message of a
    recording in progress takes the language read when the recording is
    stopped, that is the newly chosen one. *)
Theorem settings_apply_immediately (w : World) (v : string) :
  settingsOpen (ui w) = true ->
  Settings.language (voiceSettings (ui (step w (SelectLanguage v)))) = v
  /\ Settings.sttModel (voiceSettings (ui (step w (SelectSttModel v)))) = v
  /\ Settings.ttsModel (voiceSettings (ui (step w (SelectTtsModel v)))) = v
  /\ Settings.llmModel (voiceSettings (ui (step w (SelectLlmModel v)))) = v
  /\ (forall e,
        In e [SelectLanguage v; SelectSttModel v; SelectTtsModel v;
              SelectLlmModel v] ->
        (isConnected (ui (step w e)), isRecording (ui (step w e)),
         isProcessing (ui (step w e)), conversation (ui (step w e)),
         currentTranscription (ui (step w e)), timers (step w e))
        = (isConnected (ui w), isRecording (ui w), isProcessing (ui w),
           conversation (ui w), currentTranscription (ui w), timers w))
  /\ (isRecording (ui w) = true ->
      exists m,
        conversation
          (ui (handleStopRecording noFaults (step w (SelectLanguage v))))
        = (conversation (ui w) ++ [m])%list
        /\ language m = Some v).
Proof.
  intros O. unfold step. cbn. rewrite O. cbn.
  repeat split.
  - intros e He. cbn in He.
    destruct He as [<-|[<-|[<-|[<-|[]]]]]; cbn; rewrite O; reflexivity.
  - intros R. eexists. unfold handleStopRecording. cbn. rewrite R. cbn.
    split; reflexivity.
Qed.

Lemma settings_apply_immediately_witness :
  Settings.language
    (voiceSettings (ui (step Scenarios.recordingWithSettings (SelectLanguage "hi"))))
  = "hi".
Proof.
  apply (settings_apply_immediately Scenarios.recordingWithSettings "hi").
  reflexivity.
Defined.

(** C5, as stated, fails: a recording started under "en"; the language
    is switched while it runs; the settings cell holds "hi" at once,
    with the recording still running, and the message of that recording
    is tagged "hi".  During processing a switch is immediate too. *)
Lemma snapshot_counterexample :
  isRecording (ui Scenarios.recordingWithSettings) = true
  /\ Settings.language (voiceSettings (ui Scenarios.recordingWithSettings)) = "en"
  /\ isRecording (ui (step Scenarios.recordingWithSettings (SelectLanguage "hi")))
     = true
  /\ Settings.language
       (voiceSettings (ui (step Scenarios.recordingWithSettings (SelectLanguage "hi"))))
     = "hi"
  /\ option_map language
       (newest (steps [SelectLanguage "hi"; CloseSettings; ClickRecord noFaults]
                  Scenarios.recordingWithSettings))
     = Some (Some "hi")
  /\ isProcessing
       (ui (steps [ClickSettings; SelectSttModel "whisper-medium"]
              Scenarios.processingVoice)) = true
  /\ Settings.sttModel
       (voiceSettings
          (ui (steps [ClickSettings; SelectSttModel "whisper-medium"]
                 Scenarios.processingVoice)))
     = "whisper-medium"
  /\ voiceSettings (ui (step Scenarios.recordingWithSettings (SelectLanguage "hi")))
     <> voiceSettings (ui Scenarios.recordingWithSettings).
Proof. repeat split. discriminate. Qed.

End Capture.

(** ** The model-management panel *)

Section Models.
Import ModelManagement.

Lemma map_replace_unknown (em : ModelConfig) (t : N) (ms : list ModelConfig) :
  knownId ms em = false ->
  map (fun m => if String.eqb (id m) (id em) then touched em t else m) ms = ms.
Proof.
  unfold knownId. induction ms as [|m r IH]; cbn; [reflexivity|].
  intros H. apply orb_false_iff in H as [Hm Hr].
  rewrite Hm, (IH Hr). reflexivity.
Qed.

Lemma map_replace_known (em : ModelConfig) (t : N) (ms : list ModelConfig) :
  knownId ms em = true ->
  In (touched em t)
     (map (fun m => if String.eqb (id m) (id em) then touched em t else m) ms).
Proof.
  unfold knownId. induction ms as [|m r IH]; cbn; [discriminate|].
  destruct (String.eqb (id m) (id em)); cbn; intros H; [now left|].
  right. now apply IH.
Qed.

(** What handleSaveModel does with the configuration under edit: with no
    edit open, nothing; otherwise every listed model with the id of the
    edited one is replaced by the edited configuration, stamped with the
    current time, the others stay, the dialog closes and success is
    reported. *)
Lemma handleSaveModel_effect (w : World) :
  match editingModel (ui w) with
  | None => handleSaveModel w = w
  | Some em =>
      (knownId (models (ui w)) em = true ->
       In (touched em (now w)) (models (ui (handleSaveModel w))))
      /\ (forall m, In m (models (ui w)) -> id m <> id em ->
                    In m (models (ui (handleSaveModel w))))
      /\ (knownId (models (ui w)) em = false ->
          models (ui (handleSaveModel w)) = models (ui w))
      /\ List.length (models (ui (handleSaveModel w)))
         = List.length (models (ui w))
      /\ dialogOpen (ui (handleSaveModel w)) = false
      /\ editingModel (ui (handleSaveModel w)) = None
      /\ toasts (handleSaveModel w)
         = (toasts w
            ++ [ToastSuccess "Model configuration updated successfully"])%list
  end.
Proof.
  unfold handleSaveModel. destruct (editingModel (ui w)) as [em|]; cbn;
    [|reflexivity].
  repeat split.
  - apply map_replace_known.
  - intros m Hin Hne. apply in_map_iff. exists m. split; [|exact Hin].
    apply String.eqb_neq in Hne. now rewrite Hne.
  - apply map_replace_unknown.
  - apply length_map.
Qed.

End Models.

(** ** The voice-agent page: sessions *)

Section Sessions.
Import VoiceAgent.

Ltac fault_cases f :=
  destruct (f ConnectToast) eqn:?, (f ConnectDate) eqn:?,
           (f StartToast) eqn:?, (f StartTimeout1) eqn:?,
           (f StartTimeout2) eqn:?, (f StopDate) eqn:?,
           (f StopTimeout) eqn:?.

(** The handlers behind the record button never touch the connection
    flag, whichever calls throw. *)
Lemma record_keeps_connection (f : Faults) (w : World) :
  isConnected (ui (handleStartRecording f w)) = isConnected (ui w)
  /\ isConnected (ui (handleStopRecording f w)) = isConnected (ui w).
Proof.
  unfold handleStartRecording, handleStopRecording, ext, try_catch, run, bind.
  destruct (isConnected (ui w)) eqn:C, (isRecording (ui w)) eqn:R;
    fault_cases f; cbn; rewrite ?C; split; reflexivity.
Qed.

Lemma elapse_flags (dt : N) (w : World) :
  isConnected (ui (elapse dt w)) = isConnected (ui w)
  /\ isRecording (ui (elapse dt w)) = isRecording (ui w)
  /\ isProcessing (ui (elapse dt w))
     = (if existsb isReply (dueTimers dt w) then false else isProcessing (ui w)).
Proof.
  unfold elapse, dueTimers. cbn.
  match goal with
  | |- context [fold_left fireTimer ?l ?w0] =>
      destruct (fold_fireTimer_flags l w0) as (-> & -> & ->)
  end.
  repeat split.
Qed.

Lemma handleTextSubmit_keeps_connection (w : World) :
  isConnected (ui (handleTextSubmit w)) = isConnected (ui w).
Proof.
  unfold handleTextSubmit. cbv zeta.
  destruct (negb (JS.truthy (JS.trim (textInput (ui w))))
            || negb (isConnected (ui w))) eqn:G; reflexivity.
Qed.


(** *** Pending replies *)

Lemma insertTimer_replies (t : Timer) (l : list Timer) :
  List.length (filter isReply (insertTimer t l))
  = List.length (filter isReply (t :: l)).
Proof.
  induction l as [|x r IH]; [reflexivity|].
  cbn [insertTimer]. destruct (due t <? due x); [reflexivity|].
  cbn [filter] in *. destruct (isReply x), (isReply t); cbn in *; lia.
Qed.

Lemma sortTimers_replies (l : list Timer) :
  List.length (filter isReply (sortTimers l)) = List.length (filter isReply l).
Proof.
  unfold sortTimers.
  enough (G : forall acc,
             List.length (filter isReply
                            (fold_left (fun a t => insertTimer t a) l acc))
             = (List.length (filter isReply l)
                + List.length (filter isReply acc))%nat)
    by (rewrite G; cbn; lia).
  induction l as [|x r IH]; intros acc; [reflexivity|].
  cbn [fold_left]. rewrite IH, insertTimer_replies.
  cbn [filter]. destruct (isReply x); cbn; lia.
Qed.

Lemma existsb_filter {A} (p : A -> bool) (l : list A) :
  existsb p l = negb (Nat.eqb (List.length (filter p l)) 0).
Proof.
  induction l as [|x r IH]; [reflexivity|].
  cbn. destruct (p x); [reflexivity|exact IH].
Qed.

Lemma filter_both_sides {A} (p q : A -> bool) (l : list A) :
  (List.length (filter p (filter q l))
   + List.length (filter p (filter (fun x => negb (q x)) l))
   = List.length (filter p l))%nat.
Proof.
  induction l as [|x r IH]; [reflexivity|].
  cbn. destruct (q x), (p x) eqn:Px; cbn; rewrite ?Px; cbn; lia.
Qed.

Lemma elapse_oneReplyInFlight (dt : N) (w : World) :
  oneReplyInFlight w -> oneReplyInFlight (elapse dt w).
Proof.
  unfold oneReplyInFlight, pendingReplies. intros I.
  rewrite elapse_timers.
  destruct (elapse_flags dt w) as (_ & _ & ->).
  unfold dueTimers. rewrite existsb_filter, sortTimers_replies.
  pose proof (filter_both_sides isReply
                (fun x => due x <=? now w + dt) (timers w)) as S.
  destruct (isProcessing (ui w));
    destruct (List.length
                (filter isReply
                   (filter (fun x => due x <=? now w + dt) (timers w))))
      as [|[|k]]; cbn; lia.
Qed.

Ltac count_replies :=
  unfold oneReplyInFlight, pendingReplies in *; cbn in *;
  rewrite ?filter_app, ?length_app in *; cbn in *; try lia.

Lemma step_oneReplyInFlight (w : World) (e : Event) :
  isDisconnect e = false ->
  oneReplyInFlight w -> oneReplyInFlight (step w e).
Proof.
  intros D I. unfold step.
  destruct (enabled e (ui w)) eqn:En; [|exact I].
  destruct e; cbn [handle]; try discriminate D;
    try (now apply elapse_oneReplyInFlight);
    try (unfold oneReplyInFlight, pendingReplies in *; cbn; exact I).
  - (* connect *)
    unfold handleConnect, ext, try_catch, run, bind.
    fault_cases f; count_replies.
  - (* record *)
    cbn in En. apply andb_true_iff in En as [C P].
    apply negb_true_iff in P.
    unfold handleStartRecording, handleStopRecording, ext, try_catch, run, bind.
    rewrite C. unfold oneReplyInFlight in I. rewrite P in I.
    destruct (isRecording (ui w)) eqn:R; cbn [negb];
      fault_cases f; count_replies; rewrite ?P; lia.
  - (* enter *)
    cbn in En. apply negb_true_iff, orb_false_iff in En as [C P].
    apply negb_false_iff in C.
    destruct (JS.whitespaceOnly (textInput (ui w))) eqn:W.
    + now rewrite (handleTextSubmit_rejected w (or_introl W)).
    + rewrite (handleTextSubmit_accepted w W C).
      unfold oneReplyInFlight in I. rewrite P in I. count_replies.
  - (* send *)
    cbn in En. apply negb_true_iff, orb_false_iff in En as [En P].
    apply orb_false_iff in En as [W C].
    apply negb_false_iff in C. rewrite not_trim_iff in W.
    rewrite (handleTextSubmit_accepted w W C).
    unfold oneReplyInFlight in I. rewrite P in I. count_replies.
Qed.

Lemma steps_oneReplyInFlight (es : list Event) (w : World) :
  forallb (fun e => negb (isDisconnect e)) es = true ->
  oneReplyInFlight w -> oneReplyInFlight (steps es w).
Proof.
  unfold steps. revert w. induction es as [|e r IH]; intros w N I; [exact I|].
  cbn in N. apply andb_true_iff in N as [Ne Nr]. apply negb_true_iff in Ne.
  cbn [fold_left]. apply IH; [exact Nr|].
  now apply step_oneReplyInFlight.
Qed.

(** C2, as the code has it. While the processing flag is set the record
    button is disabled: a click changes nothing, so nothing is cancelled
    and no capture starts.  A capture starts from a connected session
    that is neither processing nor recording, and starting it leaves the
    pending replies and the conversation alone.  From the mounted page,
    as long as the session is not disconnected, exactly one reply is
    pending while the processing flag is set and none otherwise, so at
    most one. *)
Theorem record_disabled_while_processing :
  (forall (w : World) (f : Faults),
      isProcessing (ui w) = true -> step w (ClickRecord f) = w)
  /\ (forall (w : World),
        isConnected (ui w) = true ->
        isProcessing (ui w) = false ->
        isRecording (ui w) = false ->
        isRecording (ui (step w (ClickRecord noFaults))) = true
        /\ isProcessing (ui (step w (ClickRecord noFaults))) = false
        /\ pendingReplies (step w (ClickRecord noFaults)) = pendingReplies w
        /\ conversation (ui (step w (ClickRecord noFaults)))
           = conversation (ui w))
  /\ (forall (es : list Event) (t0 : N),
        forallb (fun e => negb (isDisconnect e)) es = true ->
        pendingReplies (steps es (initialWorld t0))
        = (if isProcessing (ui (steps es (initialWorld t0))) then 1 else 0)%nat
        /\ (pendingReplies (steps es (initialWorld t0)) <= 1)%nat).
Proof.
  split; [|split].
  - intros w f P. unfold step. cbn. rewrite P.
    now rewrite andb_false_r.
  - intros w C P R. unfold step. cbn. rewrite C, P, R. cbn.
    unfold handleStartRecording. rewrite C. cbn.
    unfold pendingReplies. cbn. rewrite !filter_app, !length_app. cbn.
    repeat split; try assumption. lia.
  - intros es t0 N.
    assert (I : oneReplyInFlight (steps es (initialWorld t0)))
      by (apply steps_oneReplyInFlight; [exact N|reflexivity]).
    split; [exact I|]. unfold oneReplyInFlight in I. rewrite I.
    destruct (isProcessing _); lia.
Qed.

Lemma record_disabled_while_processing_witness :
  step Scenarios.processingVoice (ClickRecord noFaults) = Scenarios.processingVoice
  /\ isRecording (ui (step Scenarios.typed (ClickRecord noFaults))) = true
  /\ (pendingReplies Scenarios.processingVoice <= 1)%nat.
Proof.
  split; [|split].
  - apply (proj1 record_disabled_while_processing
             Scenarios.processingVoice noFaults). reflexivity.
  - apply (proj1 (proj2 record_disabled_while_processing) Scenarios.typed);
      reflexivity.
  - apply (proj2 (proj2 record_disabled_while_processing)
             [ClickConnect noFaults; ClickRecord noFaults; Elapse 2500;
              ClickRecord noFaults] 0). reflexivity.
Defined.

(** C2, as stated, fails: with a reply pending, a click on the record
    button changes nothing, so the exchange is not cancelled and no
    capture starts; handleStartRecording called all the same leaves the
    processing flag and the pending reply in place; and after a
    disconnect and a reconnect two replies are pending at once. *)
Lemma barge_in_counterexample :
  isProcessing (ui Scenarios.processingVoice) = true
  /\ step Scenarios.processingVoice (ClickRecord noFaults)
     = Scenarios.processingVoice
  /\ isRecording (ui (step Scenarios.processingVoice (ClickRecord noFaults)))
     = false
  /\ pendingReplies (step Scenarios.processingVoice (ClickRecord noFaults))
     = 1%nat
  /\ isProcessing (ui (handleStartRecording noFaults Scenarios.processingVoice))
     = true
  /\ pendingReplies (handleStartRecording noFaults Scenarios.processingVoice)
     = 1%nat
  /\ pendingReplies Scenarios.twoPending = 2%nat.
Proof. repeat split. Qed.

End Sessions.

(** ** The voice-agent page: what every session keeps *)

Section SessionInvariants.
Import VoiceAgent Session.

Ltac connect_faults f :=
  destruct (f ConnectToast) eqn:?, (f ConnectDate) eqn:?.

Ltac start_faults f :=
  destruct (f StartToast) eqn:?, (f StartTimeout1) eqn:?,
           (f StartTimeout2) eqn:?.

Ltac stop_faults f :=
  destruct (f StopDate) eqn:?, (f StopTimeout) eqn:?.

Ltac open_handlers :=
  unfold handleConnect, handleDisconnect, handleStartRecording,
    handleStopRecording, handleClearConversation, ext, try_catch, run, bind.

(** An induction principle for the reached worlds. *)
Lemma reached_ind (P : World -> Prop) :
  (forall t0, P (initialWorld t0)) ->
  (forall w e, P w -> P (step w e)) ->
  forall es t0, P (reached es t0).
Proof.
  intros H0 Hs es t0. unfold reached, steps.
  generalize (H0 t0). generalize (initialWorld t0).
  induction es as [|e r IH]; intros w Hw; [exact Hw|].
  cbn [fold_left]. apply IH, Hs, Hw.
Qed.

Lemma step_flags_need_connection (w : World) (e : Event) :
  (isRecording (ui w) || isProcessing (ui w) = true -> isConnected (ui w) = true) ->
  isRecording (ui (step w e)) || isProcessing (ui (step w e)) = true ->
  isConnected (ui (step w e)) = true.
Proof.
  intros I. unfold step.
  destruct (enabled e (ui w)) eqn:En; [|exact I].
  destruct e; cbn [handle]; cbn in En.
  - (* connect: the flags were clear and stay clear *)
    apply negb_true_iff in En.
    destruct (isRecording (ui w)) eqn:R, (isProcessing (ui w)) eqn:P;
      try (specialize (I eq_refl); congruence).
    open_handlers. connect_faults f; cbn; rewrite ?R, ?P; cbn; discriminate.
  - cbn. discriminate.
  - apply andb_true_iff in En as [C _]. intros _.
    destruct (isRecording (ui w));
      [rewrite (proj2 (record_keeps_connection f w))
      |rewrite (proj1 (record_keeps_connection f w))]; exact C.
  - cbn. exact I.
  - cbn. exact I.
  - cbn. exact I.
  - cbn. exact I.
  - apply negb_true_iff, orb_false_iff in En as [C _].
    apply negb_false_iff in C. intros _.
    now rewrite handleTextSubmit_keeps_connection.
  - apply negb_true_iff, orb_false_iff in En as [En _].
    apply orb_false_iff in En as [_ C]. apply negb_false_iff in C. intros _.
    now rewrite handleTextSubmit_keeps_connection.
  - cbn. exact I.
  - cbn. exact I.
  - cbn. exact I.
  - cbn. exact I.
  - cbn. exact I.
  - cbn. exact I.
  - destruct (elapse_flags dt w) as (-> & -> & ->).
    destruct (existsb isReply (dueTimers dt w)); [|exact I].
    intros H. apply I. rewrite orb_false_r in H. rewrite H. reflexivity.
Qed.

(** X1. Whatever the user does and whichever calls throw, the recording
    and processing flags are only ever set in a connected session. *)
Theorem flags_need_connection (es : list Event) (t0 : N) :
  isRecording (ui (reached es t0)) || isProcessing (ui (reached es t0)) = true ->
  isConnected (ui (reached es t0)) = true.
Proof.
  revert es t0.
  apply (reached_ind
           (fun w => isRecording (ui w) || isProcessing (ui w) = true ->
                     isConnected (ui w) = true)).
  - intros t0. cbn. discriminate.
  - intros w e. apply step_flags_need_connection.
Qed.

Lemma flags_need_connection_witness :
  isConnected (ui (reached [ClickConnect noFaults; ClickRecord noFaults] 0)) = true.
Proof.
  apply (flags_need_connection [ClickConnect noFaults; ClickRecord noFaults] 0).
  reflexivity.
Defined.

(** X2. handleConnect: when the toast or the date call throws, the catch
    block leaves the session disconnected with an error toast last and
    the conversation as it was; otherwise the session is connected and
    the conversation is replaced by the welcome message alone.  In both
    cases the timers, the clock and the recording and processing flags
    are untouched. *)
Theorem handleConnect_outcomes (f : Faults) (w : World) :
  (if f ConnectToast || f ConnectDate
   then isConnected (ui (handleConnect f w)) = false
        /\ conversation (ui (handleConnect f w)) = conversation (ui w)
        /\ last (toasts (handleConnect f w)) (ToastSuccess EmptyString)
           = ToastError "Failed to connect to voice agent"
   else isConnected (ui (handleConnect f w)) = true
        /\ conversation (ui (handleConnect f w)) = [welcomeMessage (now w)]
        /\ toasts (handleConnect f w)
           = (toasts w ++ [ToastSuccess "Connected to voice agent"])%list)
  /\ timers (handleConnect f w) = timers w
  /\ now (handleConnect f w) = now w
  /\ isRecording (ui (handleConnect f w)) = isRecording (ui w)
  /\ isProcessing (ui (handleConnect f w)) = isProcessing (ui w).
Proof.
  open_handlers.
  destruct (f ConnectToast) eqn:T, (f ConnectDate) eqn:D; cbn;
    rewrite ?last_last; repeat split.
Qed.

(** What the two handlers behind the record button can do, whichever
    calls throw. *)
Lemma handleStartRecording_frame (f : Faults) (w : World) :
  conversation (ui (handleStartRecording f w)) = conversation (ui w)
  /\ now (handleStartRecording f w) = now w
  /\ isProcessing (ui (handleStartRecording f w)) = isProcessing (ui w)
  /\ exists added,
       timers (handleStartRecording f w) = (timers w ++ added)%list
       /\ Forall (fun t => isReply t = false
                           /\ (due t = now w + 1000 \/ due t = now w + 2000))
                 added.
Proof.
  assert (T : forall l : list Timer, l = (l ++ [])%list)
    by (intros; now rewrite app_nil_r).
  open_handlers. destruct (isConnected (ui w)); cbn [negb];
    [start_faults f|]; cbn;
    (split; [reflexivity|split; [reflexivity|split; [reflexivity|]]]);
    rewrite <- ?app_assoc;
    eexists; (split; [first [reflexivity | apply T]|]);
    repeat (apply Forall_cons;
            [split; [reflexivity
                    |first [left; reflexivity | right; reflexivity]]|]);
    apply Forall_nil.
Qed.

Lemma handleStopRecording_frame (f : Faults) (w : World) :
  now (handleStopRecording f w) = now w
  /\ (conversation (ui (handleStopRecording f w)) = conversation (ui w)
      \/ conversation (ui (handleStopRecording f w))
         = (conversation (ui w) ++ [voiceUserMessage (ui w) (now w)])%list)
  /\ ((timers (handleStopRecording f w) = timers w
       /\ (isProcessing (ui (handleStopRecording f w)) = false
           \/ handleStopRecording f w = w))
      \/ (timers (handleStopRecording f w)
          = (timers w ++ [mkTimer (now w + 2000) RecordingReply])%list
          /\ isProcessing (ui (handleStopRecording f w)) = true)).
Proof.
  open_handlers. destruct (isRecording (ui w)); cbn [negb].
  - stop_faults f; cbn; repeat split; auto.
  - repeat split; auto.
Qed.

Lemma replies_shape (t0 : N) (l : list Timer) :
  Forall wellFormedMessage (replies t0 l).
Proof.
  revert t0. induction l as [|x r IH]; intros t0; cbn; [constructor|].
  apply Forall_app. split; [|apply IH].
  destruct (callback x); cbn; repeat constructor.
Qed.

Lemma step_message_shape (w : World) (e : Event) :
  Forall wellFormedMessage (conversation (ui w)) ->
  Forall wellFormedMessage (conversation (ui (step w e))).
Proof.
  intros I. unfold step.
  destruct (enabled e (ui w)) eqn:En; [|exact I].
  destruct e; cbn [handle]; try (cbn; exact I).
  - open_handlers. connect_faults f; cbn; try exact I; repeat constructor.
  - destruct (isRecording (ui w)).
    + destruct (handleStopRecording_frame f w) as (_ & [-> | ->] & _);
        [exact I|].
      apply Forall_app. split; [exact I|].
      apply Forall_cons; [|apply Forall_nil].
      left. split; [reflexivity|discriminate].
    + now rewrite (proj1 (handleStartRecording_frame f w)).
  - cbn. constructor.
  - destruct (JS.whitespaceOnly (textInput (ui w))) eqn:W.
    + now rewrite (handleTextSubmit_rejected w (or_introl W)).
    + destruct (isConnected (ui w)) eqn:C.
      * rewrite (handleTextSubmit_accepted w W C). cbn.
        apply Forall_app. split; [exact I|].
        apply Forall_cons; [|apply Forall_nil].
        right. split; reflexivity.
      * now rewrite (handleTextSubmit_rejected w (or_intror C)).
  - destruct (JS.whitespaceOnly (textInput (ui w))) eqn:W.
    + now rewrite (handleTextSubmit_rejected w (or_introl W)).
    + destruct (isConnected (ui w)) eqn:C.
      * rewrite (handleTextSubmit_accepted w W C). cbn.
        apply Forall_app. split; [exact I|].
        apply Forall_cons; [|apply Forall_nil].
        right. split; reflexivity.
      * now rewrite (handleTextSubmit_rejected w (or_intror C)).
  - rewrite elapse_conversation. apply Forall_app. split; [exact I|].
    apply replies_shape.
Qed.

(** X3. In every conversation the page can show, an agent message has
    neither confidence nor language, and a user message has either the
    confidence 0.95 together with a language (a recording) or neither
    (a typed text). *)
Theorem conversation_message_shapes (es : list Event) (t0 : N) :
  Forall wellFormedMessage (conversation (ui (reached es t0))).
Proof.
  revert es t0.
  apply (reached_ind
           (fun w => Forall wellFormedMessage (conversation (ui w)))).
  - intros t0. constructor.
  - intros w e. apply step_message_shape.
Qed.

End SessionInvariants.

(** ** The voice-agent page: timers never outlive two seconds *)

Section SessionLiveness.
Import VoiceAgent Session.

Lemma handleConnect_frame (f : Faults) (w : World) :
  timers (handleConnect f w) = timers w
  /\ now (handleConnect f w) = now w
  /\ isProcessing (ui (handleConnect f w)) = isProcessing (ui w).
Proof.
  unfold handleConnect, ext, try_catch, run, bind.
  destruct (f ConnectToast), (f ConnectDate); cbn; repeat split.
Qed.

Lemma elapse_now (dt : N) (w : World) : now (elapse dt w) = now w + dt.
Proof. reflexivity. Qed.

Lemma timersInWindow_spec (w : World) :
  timersInWindow w = true <->
  forall t, In t (timers w) -> now w <= due t /\ due t <= now w + 2000.
Proof.
  unfold timersInWindow. rewrite forallb_forall.
  split; intros H t Ht; specialize (H t Ht).
  - apply andb_true_iff in H as [A B].
    apply N.leb_le in A. apply N.leb_le in B. now split.
  - destruct H as [A B]. apply andb_true_iff.
    split; now apply N.leb_le.
Qed.

Lemma step_timersInWindow (w : World) (e : Event) :
  timersInWindow w = true -> timersInWindow (step w e) = true.
Proof.
  intros I. unfold step.
  destruct (enabled e (ui w)) eqn:En; [|exact I].
  destruct e; cbn [handle]; try exact I.
  - apply timersInWindow_spec.
    destruct (handleConnect_frame f w) as (-> & -> & _).
    now apply timersInWindow_spec.
  - apply timersInWindow_spec.
    pose proof (proj1 (timersInWindow_spec w) I) as J; clear I; rename J into I.
    destruct (isRecording (ui w)).
    + destruct (handleStopRecording_frame f w) as (-> & _ & [[-> _] | [-> _]]);
        [exact I|].
      intros t Ht. apply in_app_iff in Ht as [Ht | [<- | []]];
        [now apply I|]. cbn. lia.
    + destruct (handleStartRecording_frame f w) as (_ & -> & _ & added & -> & A).
      intros t Ht. apply in_app_iff in Ht as [Ht | Ht]; [now apply I|].
      rewrite Forall_forall in A. destruct (A t Ht) as [_ [-> | ->]]; lia.
  - apply timersInWindow_spec.
    pose proof (proj1 (timersInWindow_spec w) I) as J; clear I; rename J into I.
    destruct (JS.whitespaceOnly (textInput (ui w))) eqn:W;
      [now rewrite (handleTextSubmit_rejected w (or_introl W))|].
    destruct (isConnected (ui w)) eqn:C;
      [|now rewrite (handleTextSubmit_rejected w (or_intror C))].
    rewrite (handleTextSubmit_accepted w W C). cbn.
    intros t Ht. apply in_app_iff in Ht as [Ht | [<- | []]];
      [now apply I|]. cbn. lia.
  - apply timersInWindow_spec.
    pose proof (proj1 (timersInWindow_spec w) I) as J; clear I; rename J into I.
    destruct (JS.whitespaceOnly (textInput (ui w))) eqn:W;
      [now rewrite (handleTextSubmit_rejected w (or_introl W))|].
    destruct (isConnected (ui w)) eqn:C;
      [|now rewrite (handleTextSubmit_rejected w (or_intror C))].
    rewrite (handleTextSubmit_accepted w W C). cbn.
    intros t Ht. apply in_app_iff in Ht as [Ht | [<- | []]];
      [now apply I|]. cbn. lia.
  - apply timersInWindow_spec.
    pose proof (proj1 (timersInWindow_spec w) I) as J; clear I; rename J into I.
    rewrite elapse_now, elapse_timers.
    intros t Ht. apply filter_In in Ht as [Ht G].
    apply negb_true_iff, N.leb_gt in G.
    destruct (I t Ht). lia.
Qed.

Lemma existsb_sortTimers (l : list Timer) :
  existsb isReply (sortTimers l) = existsb isReply l.
Proof. now rewrite !existsb_filter, sortTimers_replies. Qed.

Lemma existsb_both_sides (q : Timer -> bool) (l : list Timer) :
  existsb isReply l
  = existsb isReply (filter q l)
    || existsb isReply (filter (fun x => negb (q x)) l).
Proof.
  induction l as [|x r IH]; [reflexivity|].
  cbn. destruct (q x), (isReply x) eqn:R; cbn; rewrite ?R, ?IH; cbn;
    try reflexivity; now rewrite ?orb_true_r.
Qed.

Lemma step_processingAwaitsReply (w : World) (e : Event) :
  processingAwaitsReply w = true -> processingAwaitsReply (step w e) = true.
Proof.
  unfold processingAwaitsReply. intros I. unfold step.
  destruct (enabled e (ui w)) eqn:En; [|exact I].
  destruct e; cbn [handle]; try exact I.
  - now destruct (handleConnect_frame f w) as (-> & _ & ->).
  - reflexivity.
  - destruct (isRecording (ui w)).
    + destruct (handleStopRecording_frame f w)
        as (_ & _ & [[-> [-> | ->]] | [-> ->]]);
        [reflexivity|exact I|].
      cbn. rewrite existsb_app. cbn. now rewrite orb_true_r.
    + destruct (handleStartRecording_frame f w) as (_ & _ & -> & added & -> & _).
      rewrite existsb_app.
      destruct (isProcessing (ui w)); [|reflexivity].
      cbn in *. now rewrite I.
  - destruct (JS.whitespaceOnly (textInput (ui w))) eqn:W;
      [now rewrite (handleTextSubmit_rejected w (or_introl W))|].
    destruct (isConnected (ui w)) eqn:C;
      [|now rewrite (handleTextSubmit_rejected w (or_intror C))].
    rewrite (handleTextSubmit_accepted w W C). cbn.
    rewrite existsb_app. cbn. now rewrite orb_true_r.
  - destruct (JS.whitespaceOnly (textInput (ui w))) eqn:W;
      [now rewrite (handleTextSubmit_rejected w (or_introl W))|].
    destruct (isConnected (ui w)) eqn:C;
      [|now rewrite (handleTextSubmit_rejected w (or_intror C))].
    rewrite (handleTextSubmit_accepted w W C). cbn.
    rewrite existsb_app. cbn. now rewrite orb_true_r.
  - destruct (elapse_flags dt w) as (_ & _ & ->).
    rewrite elapse_timers. unfold dueTimers. rewrite existsb_sortTimers.
    rewrite (existsb_both_sides (fun x => due x <=? now w + dt) (timers w)) in I.
    destruct (existsb isReply
                (filter (fun x => due x <=? now w + dt) (timers w)));
      [reflexivity|exact I].
Qed.

(** X4. The processing indicator cannot hang: in whatever state the page
    is, two seconds (or more) without user input fire every pending timer
    and leave the processing flag clear. *)
Theorem processing_ends_within_two_seconds
    (es : list Event) (t0 : N) (dt : N) :
  2000 <= dt ->
  isProcessing (ui (reached (es ++ [Elapse dt]) t0)) = false
  /\ timers (reached (es ++ [Elapse dt]) t0) = [].
Proof.
  intros D.
  assert (W : timersInWindow (reached es t0) = true
              /\ processingAwaitsReply (reached es t0) = true).
  { revert es t0.
    apply (reached_ind
             (fun w => timersInWindow w = true
                       /\ processingAwaitsReply w = true)).
    - intros t0. split; reflexivity.
    - intros w e [A B]. split;
        [now apply step_timersInWindow|now apply step_processingAwaitsReply]. }
  destruct W as [A B].
  unfold reached, steps in *. rewrite fold_left_app. cbn [fold_left].
  set (w := fold_left step es (initialWorld t0)) in *.
  unfold step. cbn [enabled handle].
  assert (Hall : forall t, In t (timers w) -> (due t <=? now w + dt) = true).
  { intros t Ht. apply N.leb_le.
    destruct (proj1 (timersInWindow_spec w) A t Ht). lia. }
  split.
  - destruct (elapse_flags dt w) as (_ & _ & ->).
    unfold dueTimers. rewrite existsb_sortTimers, (filter_all _ _ Hall).
    unfold processingAwaitsReply in B.
    destruct (isProcessing (ui w)); [|now destruct (existsb isReply (timers w))].
    cbn in B. now rewrite B.
  - rewrite elapse_timers.
    induction (timers w) as [|x r IH]; [reflexivity|].
    cbn. rewrite (Hall x (or_introl eq_refl)). cbn.
    apply IH. intros t Ht. apply Hall. now right.
Qed.

Lemma processing_ends_within_two_seconds_witness :
  isProcessing
    (ui (reached ([ClickConnect noFaults; ChangeText "hello"; ClickSend]
                  ++ [Elapse 2000]) 0)) = false
  /\ timers (reached ([ClickConnect noFaults; ChangeText "hello"; ClickSend]
                      ++ [Elapse 2000]) 0) = [].
Proof.
  apply (processing_ends_within_two_seconds
           [ClickConnect noFaults; ChangeText "hello"; ClickSend] 0 2000).
  vm_compute. discriminate.
Defined.

End SessionLiveness.

(** ** The voice-agent page: whole exchanges *)

Section Exchanges.
Import VoiceAgent Session.

Ltac decide_N :=
  repeat match goal with
  | |- context [?a <=? ?b] =>
      first [ rewrite (proj2 (N.leb_le a b)) by lia
            | rewrite (proj2 (N.leb_gt a b)) by lia ]
  | |- context [?a <? ?b] =>
      first [ rewrite (proj2 (N.ltb_lt a b)) by lia
            | rewrite (proj2 (N.ltb_ge a b)) by lia ]
  | |- context [N.max ?a ?b] =>
      first [ rewrite (N.max_r a b) by lia
            | rewrite (N.max_l a b) by lia ]
  end.

(** X5. Apart from connecting and clearing, nothing the user does and no
    timer removes or rewrites a message: the conversation after the event
    is the conversation before with messages added at the end. *)
Theorem conversation_only_grows (w : World) (e : Event) :
  resetsConversation e = false ->
  extends (conversation (ui (step w e))) (conversation (ui w)).
Proof.
  intros Hr.
  assert (Same : extends (conversation (ui w)) (conversation (ui w)))
    by (exists []; now rewrite app_nil_r).
  unfold step. destruct (enabled e (ui w)); [|exact Same].
  destruct e; cbn [handle]; try discriminate Hr; try exact Same.
  - destruct (isRecording (ui w)).
    + destruct (handleStopRecording_frame f w) as (_ & [-> | ->] & _);
        [exact Same|]. now eexists.
    + now rewrite (proj1 (handleStartRecording_frame f w)).
  - destruct (JS.whitespaceOnly (textInput (ui w))) eqn:W;
      [now rewrite (handleTextSubmit_rejected w (or_introl W))|].
    destruct (isConnected (ui w)) eqn:C;
      [|now rewrite (handleTextSubmit_rejected w (or_intror C))].
    rewrite (handleTextSubmit_accepted w W C). now eexists.
  - destruct (JS.whitespaceOnly (textInput (ui w))) eqn:W;
      [now rewrite (handleTextSubmit_rejected w (or_introl W))|].
    destruct (isConnected (ui w)) eqn:C;
      [|now rewrite (handleTextSubmit_rejected w (or_intror C))].
    rewrite (handleTextSubmit_accepted w W C). now eexists.
  - rewrite elapse_conversation. now eexists.
Qed.

Lemma conversation_only_grows_witness :
  extends
    (conversation (ui (step Scenarios.processingVoice (Elapse 2000))))
    (conversation (ui Scenarios.processingVoice)).
Proof.
  apply (conversation_only_grows Scenarios.processingVoice (Elapse 2000)).
  reflexivity.
Defined.

(** X6. Resetting the conversation cancels no reply: after a click on the
    history button, or after a disconnect followed by a reconnect, the
    replies still pending land in the new conversation as their timers
    come due, behind the welcome message in the second case. *)
Theorem reset_inherits_pending_replies (w : World) (dt : N) :
  isConnected (ui w) = true ->
  conversation (ui (steps [ClickHistory; Elapse dt] w))
  = replies (now w) (dueTimers dt w)
  /\ conversation
       (ui (steps [ClickDisconnect; ClickConnect noFaults; Elapse dt] w))
     = welcomeMessage (now w) :: replies (now w) (dueTimers dt w).
Proof.
  intros C. unfold steps. cbn [fold_left]. unfold step.
  cbn [enabled handle]. rewrite C. cbn [negb].
  split; rewrite elapse_conversation; reflexivity.
Qed.

Lemma reset_inherits_pending_replies_witness :
  conversation
    (ui (steps [ClickDisconnect; ClickConnect noFaults; Elapse 2000]
           Scenarios.processingVoice))
  = [welcomeMessage 2500; agentMessage 4500 recordingReplyContent].
Proof.
  apply (reset_inherits_pending_replies Scenarios.processingVoice 2000).
  reflexivity.
Defined.

(** X7. A typed message and its answer: from a connected session that is
    not processing and has no timer pending, sending a text that is not
    blank and waiting a second and a half (or more) adds exactly the user
    message and the agent reply that quotes it; the text input is empty,
    the processing flag clear and no timer is left. *)
Theorem text_exchange (w : World) (dt : N) :
  isConnected (ui w) = true ->
  isProcessing (ui w) = false ->
  JS.whitespaceOnly (textInput (ui w)) = false ->
  timers w = [] ->
  1500 <= dt ->
  conversation (ui (steps [PressEnter; Elapse dt] w))
  = (conversation (ui w)
     ++ [textUserMessage (ui w) (now w);
         agentMessage (now w + 1500) (textReplyContent (textInput (ui w)))])%list
  /\ isProcessing (ui (steps [PressEnter; Elapse dt] w)) = false
  /\ textInput (ui (steps [PressEnter; Elapse dt] w)) = EmptyString
  /\ timers (steps [PressEnter; Elapse dt] w) = [].
Proof.
  intros C P W T D. unfold steps. cbn [fold_left]. unfold step.
  cbn [enabled handle]. rewrite C, P. cbn [negb orb].
  rewrite (handleTextSubmit_accepted w W C), T.
  unfold elapse. cbn. decide_N. cbn. decide_N.
  rewrite <- app_assoc. repeat split.
Qed.

Lemma text_exchange_witness :
  conversation (ui (steps [PressEnter; Elapse 1500] Scenarios.typed))
  = (conversation (ui Scenarios.typed)
     ++ [textUserMessage (ui Scenarios.typed) 0;
         agentMessage 1500 (textReplyContent "book a flight")])%list.
Proof.
  apply (text_exchange Scenarios.typed 1500);
    first [reflexivity | vm_compute; discriminate].
Defined.

(** The world after a whole recorded exchange. *)
Lemma voice_exchange_world (w : World) (d dt : N) :
  isConnected (ui w) = true ->
  isRecording (ui w) = false ->
  isProcessing (ui w) = false ->
  timers w = [] ->
  2000 <= dt ->
  steps [ClickRecord noFaults; Elapse d; ClickRecord noFaults; Elapse dt] w
  = {| ui :=
         mkState true false (isMuted (ui w))
           (conversation (ui w)
            ++ [mkMessage (JS.toString (now w + d)) user
                  (if d <? 1000 then fullTranscription
                   else if d <? 2000 then partialTranscription
                        else fullTranscription)
                  (now w + d)
                  (Some (Settings.language (voiceSettings (ui w))))
                  (Some (95 # 100)%Q);
                agentMessage (now w + d + 2000) recordingReplyContent])
           (if d <? 2000 then fullTranscription else EmptyString)
           false (settingsOpen (ui w)) (textInput (ui w)) (voiceSettings (ui w));
       timers := [];
       now := now w + d + dt;
       toasts := toasts w ++ [ToastSuccess "Recording started";
                              ToastSuccess "Response generated"] |}.
Proof.
  intros C R P T D. unfold steps. cbn [fold_left].
  assert (S1 : step w (ClickRecord noFaults)
               = {| ui := mkState true true (isMuted (ui w)) (conversation (ui w))
                            EmptyString false (settingsOpen (ui w))
                            (textInput (ui w)) (voiceSettings (ui w));
                    timers := [mkTimer (now w + 1000)
                                 (TranscriptionUpdate partialTranscription);
                               mkTimer (now w + 2000)
                                 (TranscriptionUpdate fullTranscription)];
                    now := now w;
                    toasts := toasts w ++ [ToastSuccess "Recording started"] |}).
  { unfold step. cbn [enabled handle]. rewrite C, P, R. cbn [andb negb].
    unfold handleStartRecording. rewrite C. cbn. rewrite C, P, T. reflexivity. }
  rewrite S1. clear S1.
  destruct (N.ltb_spec d 1000) as [A|A]; [|destruct (N.ltb_spec d 2000) as [B|B]].
  all: try assert (B' : d < 2000) by lia.
  all: do 6 (try unfold step; try unfold elapse;
             try unfold handleStopRecording; cbn; decide_N);
    rewrite <- ?app_assoc; reflexivity.
Qed.

(** X8. A recorded message and its answer: from a connected, idle session
    with no timer pending, a recording stopped after [d] milliseconds and
    followed by two seconds (or more) of waiting adds exactly one user
    message and the agent reply.  The user message holds the sentence in
    full when the recording was stopped within the first second (nothing
    was transcribed, so the fixed sentence is used) or after two seconds,
    and the partial sentence in between; it is tagged with the current
    language and the confidence 0.95.  The session ends idle with no
    timer left. *)
Theorem voice_exchange (w : World) (d dt : N) :
  isConnected (ui w) = true ->
  isRecording (ui w) = false ->
  isProcessing (ui w) = false ->
  timers w = [] ->
  2000 <= dt ->
  conversation
    (ui (steps [ClickRecord noFaults; Elapse d; ClickRecord noFaults; Elapse dt] w))
  = (conversation (ui w)
     ++ [mkMessage (JS.toString (now w + d)) user
           (if d <? 1000 then fullTranscription
            else if d <? 2000 then partialTranscription
                 else fullTranscription)
           (now w + d)
           (Some (Settings.language (voiceSettings (ui w))))
           (Some (95 # 100)%Q);
         agentMessage (now w + d + 2000) recordingReplyContent])%list
  /\ idle (ui (steps [ClickRecord noFaults; Elapse d; ClickRecord noFaults;
                      Elapse dt] w)) = true
  /\ timers (steps [ClickRecord noFaults; Elapse d; ClickRecord noFaults;
                    Elapse dt] w) = [].
Proof.
  intros C R P T D. rewrite (voice_exchange_world w d dt C R P T D).
  repeat split.
Qed.

Lemma voice_exchange_witness :
  timers (steps [ClickRecord noFaults; Elapse 1200; ClickRecord noFaults;
                 Elapse 2000] Scenarios.typed) = [].
Proof.
  apply (voice_exchange Scenarios.typed 1200 2000);
    first [reflexivity | vm_compute; discriminate].
Defined.

(** X9. A recording stopped before its two seconds are over leaves its
    transcription timers running: handleStopRecording empties the
    transcription, and when the timers then fire the transcription cell
    holds the full sentence again although no recording is in progress.
    Stopped after two seconds or more, the cell stays empty. *)
Theorem early_stop_leaves_transcription (w : World) (d dt : N) :
  isConnected (ui w) = true ->
  isRecording (ui w) = false ->
  isProcessing (ui w) = false ->
  timers w = [] ->
  2000 <= dt ->
  currentTranscription
    (ui (steps [ClickRecord noFaults; Elapse d; ClickRecord noFaults] w))
  = EmptyString
  /\ isRecording
       (ui (steps [ClickRecord noFaults; Elapse d; ClickRecord noFaults;
                   Elapse dt] w)) = false
  /\ currentTranscription
       (ui (steps [ClickRecord noFaults; Elapse d; ClickRecord noFaults;
                   Elapse dt] w))
     = (if d <? 2000 then fullTranscription else EmptyString).
Proof.
  intros C R P T D. split.
  - clear D dt. unfold steps. cbn [fold_left].
    destruct (N.ltb_spec d 1000) as [A|A];
      [assert (B : d < 2000) by lia
      |destruct (N.ltb_spec d 2000) as [B|B]];
      unfold step at 3; cbn [enabled handle]; rewrite C, P, R; cbn [andb negb];
      unfold handleStartRecording; rewrite C; cbn; rewrite C, P, T;
      do 4 (try unfold step; try unfold elapse;
            try unfold handleStopRecording; cbn; decide_N);
      reflexivity.
  - rewrite (voice_exchange_world w d dt C R P T D). split; reflexivity.
Qed.

Lemma early_stop_leaves_transcription_witness :
  currentTranscription
    (ui (steps [ClickRecord noFaults; Elapse 500; ClickRecord noFaults;
                Elapse 2000] Scenarios.typed))
  = fullTranscription.
Proof.
  apply (early_stop_leaves_transcription Scenarios.typed 500 2000);
    first [reflexivity | vm_compute; discriminate].
Defined.

End Exchanges.

(** ** The recordings grid: deleting and searching *)

Section RecordingsSearch.
Import CallRecordings RecordingsView.

Lemma filter_filter_comm {A} (p q : A -> bool) (l : list A) :
  filter p (filter q l) = filter q (filter p l).
Proof.
  induction l as [|x r IH]; [reflexivity|].
  cbn. destruct (p x) eqn:P, (q x) eqn:Q; cbn; rewrite ?P, ?Q, IH; reflexivity.
Qed.

Lemma filter_idem {A} (p : A -> bool) (l : list A) :
  filter p (filter p l) = filter p l.
Proof.
  induction l as [|x r IH]; [reflexivity|].
  cbn. destruct (p x) eqn:P; cbn; rewrite ?P, IH; reflexivity.
Qed.

(** X10. Deleting is idempotent and the order of two deletions does not
    matter. *)
Theorem handleDelete_idempotent_commutative (a b : string) (s : State) :
  handleDelete a (handleDelete a s) = handleDelete a s
  /\ handleDelete a (handleDelete b s) = handleDelete b (handleDelete a s).
Proof.
  unfold handleDelete, setRecordings. cbn. split; f_equal.
  - apply filter_idem.
  - apply filter_filter_comm.
Qed.

Lemma includes_empty (s : string) : includes s EmptyString = true.
Proof. destruct s; reflexivity. Qed.

(** X11. The rows shown are always recordings of the list, unchanged and
    in its order; with the language filter on "all" and an empty search
    every recording is shown; with any other language filter every row
    shown has exactly that language. *)
Theorem filteredRecordings_rows (s : State) :
  Subsequence (filteredRecordings s) (recordings s)
  /\ (filterLanguage s = "all" -> searchTerm s = EmptyString ->
      filteredRecordings s = recordings s)
  /\ (filterLanguage s <> "all" ->
      forall r, In r (filteredRecordings s) -> language r = filterLanguage s).
Proof.
  unfold filteredRecordings. split; [apply Subsequence_filter|split].
  - intros L T. apply filter_all. intros r _.
    unfold matchesLanguage, matchesSearch. rewrite L, T. cbn.
    now rewrite includes_empty.
  - intros L r Hr. apply filter_In in Hr as [_ Hr].
    apply andb_true_iff in Hr as [Hl _]. unfold matchesLanguage in Hl.
    apply String.eqb_neq in L. rewrite L in Hl. cbn in Hl.
    now apply String.eqb_eq.
Qed.

Lemma filteredRecordings_rows_witness :
  filteredRecordings Scenarios.grid = recordings Scenarios.grid
  /\ forall r,
       In r (filteredRecordings (setFilterLanguage "Hindi" Scenarios.grid)) ->
       language r = "Hindi".
Proof.
  split.
  - apply (filteredRecordings_rows Scenarios.grid); reflexivity.
  - apply (filteredRecordings_rows (setFilterLanguage "Hindi" Scenarios.grid)).
    discriminate.
Defined.

(** X12. Deleting a recording and filtering commute: the rows shown after
    a deletion are the rows shown before without those of the deleted
    id. *)
Theorem filteredRecordings_after_delete (id0 : string) (s : State) :
  filteredRecordings (handleDelete id0 s)
  = filter (fun r => negb (String.eqb (id r) id0)) (filteredRecordings s).
Proof.
  unfold filteredRecordings, handleDelete, setRecordings. cbn.
  apply filter_filter_comm.
Qed.

Lemma toLowerCaseUnit_idem (c : ascii) :
  toLowerCaseUnit (toLowerCaseUnit c) = toLowerCaseUnit c.
Proof.
  destruct c as [[|] [|] [|] [|] [|] [|] [|] [|]]; reflexivity.
Qed.

Lemma toLowerCase_idem (s : string) :
  toLowerCase (toLowerCase s) = toLowerCase s.
Proof.
  induction s as [|c r IH]; [reflexivity|].
  cbn. now rewrite toLowerCaseUnit_idem, IH.
Qed.

Lemma startsWith_toLowerCase (s sub : string) :
  startsWith s sub = true ->
  startsWith (toLowerCase s) (toLowerCase sub) = true.
Proof.
  revert s. induction sub as [|c r IH]; intros s; [reflexivity|].
  destruct s as [|d t]; [discriminate|]. cbn.
  intros H. apply andb_true_iff in H as [E H].
  apply Ascii.eqb_eq in E. subst d.
  now rewrite Ascii.eqb_refl, IH.
Qed.

Lemma includes_toLowerCase (s sub : string) :
  includes s sub = true ->
  includes (toLowerCase s) (toLowerCase sub) = true.
Proof.
  induction s as [|c r IH]; cbn [includes toLowerCase]; intros H.
  - rewrite orb_false_r in *. now apply (startsWith_toLowerCase EmptyString).
  - apply orb_true_iff in H as [H|H]; apply orb_true_iff.
    + left. now apply (startsWith_toLowerCase (String c r)).
    + right. now apply IH.
Qed.

(** X13. The search ignores letter case and loses no exact match: the
    rows are the same for a search term and for its lower-case form, and
    a recording of the selected language whose participant id or
    transcription contains the term as typed is always shown. *)
Theorem search_ignores_case (t : string) (s : State) :
  filteredRecordings (setSearchTerm (toLowerCase t) s)
  = filteredRecordings (setSearchTerm t s)
  /\ (forall r,
        In r (recordings s) ->
        matchesLanguage s r = true ->
        (includes (participantId r) t = true
         \/ exists tr, transcription r = Some tr /\ includes tr t = true) ->
        In r (filteredRecordings (setSearchTerm t s))).
Proof.
  unfold filteredRecordings, setSearchTerm, matchesSearch, matchesLanguage.
  cbn. split.
  - now rewrite toLowerCase_idem.
  - intros r Hin Hl Hm. apply filter_In. split; [exact Hin|].
    rewrite Hl. cbn. destruct Hm as [H | (tr & -> & H)];
      apply includes_toLowerCase in H; rewrite H;
      [reflexivity|now rewrite orb_true_r].
Qed.

Lemma search_ignores_case_witness :
  In (Scenarios.rec "2" "Hindi")
     (filteredRecordings (setSearchTerm "user_1" Scenarios.grid)).
Proof.
  apply (search_ignores_case "user_1" Scenarios.grid).
  - cbn. right. left. reflexivity.
  - reflexivity.
  - left. reflexivity.
Defined.

End RecordingsSearch.

(** ** The recordings grid: durations *)

Section Durations.
Import CallRecordings RecordingsView.

Lemma toString_digits (n : N) :
  JS.toString n = NilEmpty.string_of_uint (N.to_uint n).
Proof.
  unfold JS.toString, NilZero.string_of_uint.
  destruct (N.to_uint n) eqn:E; try reflexivity.
  exfalso. destruct n as [|p]; [discriminate|].
  now apply (DecimalPos.Unsigned.to_uint_nonnil p).
Qed.

Lemma toString_injective (a b : N) : JS.toString a = JS.toString b -> a = b.
Proof.
  rewrite !toString_digits. intros H.
  apply (f_equal NilEmpty.uint_of_string) in H.
  rewrite !NilEmpty.usu in H. injection H as H.
  apply (f_equal N.of_uint) in H.
  now rewrite !DecimalN.Unsigned.of_to in H.
Qed.

Lemma digits_no_colon (d : Decimal.uint) (c : ascii) :
  In c (list_ascii_of_string (NilEmpty.string_of_uint d)) -> c <> ":"%char.
Proof.
  induction d; cbn; intros H; try contradiction;
    (destruct H as [<-|H]; [discriminate|now apply IHd]).
Qed.

Lemma split_at_colon (m m' x x' : string) :
  (forall c, In c (list_ascii_of_string m) -> c <> ":"%char) ->
  (forall c, In c (list_ascii_of_string m') -> c <> ":"%char) ->
  m ++ String ":" x = m' ++ String ":" x' ->
  m = m' /\ x = x'.
Proof.
  revert m'. induction m as [|a r IH]; intros m' N N' E.
  - destruct m' as [|b r'].
    + cbn in E. injection E as E. now split.
    + cbn in E. injection E as E _. exfalso.
      apply (N' b); [now left|now symmetry].
  - destruct m' as [|b r'].
    + cbn in E. injection E as E _. exfalso.
      apply (N a); [now left|exact E].
    + cbn in E. injection E as E1 E2. subst b.
      destruct (IH r') as [-> ->]; try exact E2.
      * intros c Hc. apply N. now right.
      * intros c Hc. apply N'. now right.
      * now split.
Qed.

Lemma below_60 (P : N -> Prop) :
  Forall P (map N.of_nat (seq 0 60)) -> forall k, k < 60 -> P k.
Proof.
  intros F k Hk. rewrite Forall_forall in F. apply F.
  apply in_map_iff. exists (N.to_nat k). split; [apply N2Nat.id|].
  apply in_seq. lia.
Qed.

Lemma seconds_field_injective (j k : N) :
  j < 60 -> k < 60 ->
  padStart 2 "0" (JS.toString j) = padStart 2 "0" (JS.toString k) -> j = k.
Proof.
  intros Hj Hk. revert k Hk. revert j Hj.
  apply (below_60 (fun j => forall k, k < 60 ->
                     padStart 2 "0" (JS.toString j)
                     = padStart 2 "0" (JS.toString k) -> j = k)).
  repeat (apply Forall_cons;
          [intros k Hk; revert k Hk;
           apply (below_60 (fun k => padStart 2 "0" (JS.toString _)
                                     = padStart 2 "0" (JS.toString k) -> _ = k));
           repeat (apply Forall_cons;
                   [vm_compute; first [reflexivity | discriminate]|]);
           apply Forall_nil
          |]).
  apply Forall_nil.
Qed.

Lemma seconds_field_length (k : N) :
  k < 60 -> String.length (padStart 2 "0" (JS.toString k)) = 2%nat.
Proof.
  revert k. apply below_60.
  repeat (apply Forall_cons; [reflexivity|]). apply Forall_nil.
Qed.

(** X14. For a whole number of seconds up to Number.MAX_SAFE_INTEGER,
    a duration is shown as the minutes, a colon and a seconds field of
    exactly two digits, and two different such durations are never shown
    alike. *)
Theorem formatDuration_faithful (a b : N) :
  a <= maxSafeInteger ->
  b <= maxSafeInteger ->
  (exists secs,
     formatDuration a = Some (JS.toString (a / 60) ++ ":" ++ secs)
     /\ String.length secs = 2%nat)
  /\ (formatDuration a = formatDuration b -> a = b).
Proof.
  intros Sa Sb.
  assert (A : a mod 60 < 60) by (apply N.mod_lt; lia).
  assert (B : b mod 60 < 60) by (apply N.mod_lt; lia).
  unfold formatDuration.
  rewrite (proj2 (N.leb_le a maxSafeInteger) Sa).
  rewrite (proj2 (N.leb_le b maxSafeInteger) Sb). cbv zeta.
  split.
  - eexists. split; [reflexivity|]. now apply seconds_field_length.
  - rewrite !toString_digits.
    intros E. injection E as E.
    apply split_at_colon in E; try apply digits_no_colon.
    destruct E as [M S].
    rewrite <- !toString_digits in M, S.
    apply toString_injective in M.
    apply seconds_field_injective in S; try assumption.
    rewrite (N.div_mod a 60), (N.div_mod b 60) by lia.
    now rewrite M, S.
Qed.

Lemma formatDuration_faithful_witness :
  exists secs,
    formatDuration 245 = Some (JS.toString (245 / 60) ++ ":" ++ secs)
    /\ String.length secs = 2%nat.
Proof.
  apply (formatDuration_faithful 245 245); vm_compute; discriminate.
Defined.

End Durations.

(** ** The recordings grid: playback *)

Section Playback.
Import CallRecordings RecordingsView.

Ltac decide_N :=
  repeat match goal with
  | |- context [?a <=? ?b] =>
      first [ rewrite (proj2 (N.leb_le a b)) by lia
            | rewrite (proj2 (N.leb_gt a b)) by lia ]
  end.

Lemma stops_fired_none (l : list N) (s : State) :
  playingId s = None ->
  playingId (fold_left (fun s' _ => setPlayingId None s') l s) = None.
Proof.
  revert s. induction l as [|x r IH]; intros s E; [exact E|].
  cbn. now apply IH.
Qed.

Lemma stops_fired (l : list N) (s : State) :
  playingId (fold_left (fun s' _ => setPlayingId None s') l s)
  = match l with [] => playingId s | _ => None end.
Proof.
  destruct l as [|x r]; [reflexivity|]. cbn.
  now apply stops_fired_none.
Qed.

Lemma filter_none {A} (q : A -> bool) (l : list A) :
  (forall x, In x l -> q x = true) -> filter (fun x => negb (q x)) l = [].
Proof.
  induction l as [|x r IH]; intros H; [reflexivity|].
  cbn. rewrite (H x (or_introl eq_refl)). cbn.
  apply IH. intros y Hy. apply H. now right.
Qed.

Lemma playerStep_window (p : Player) (e : PlayerEvent) :
  (forall d, In d (stops p) -> clock p <= d <= clock p + 3000) ->
  forall d, In d (stops (playerStep p e)) ->
            clock (playerStep p e) <= d <= clock (playerStep p e) + 3000.
Proof.
  intros I d. destruct e as [id0|dt]; cbn.
  - unfold handlePlay. destruct (isPlaying id0 (page p)); cbn; [apply I|].
    intros H. apply in_app_iff in H as [H | [<- | []]]; [now apply I|lia].
  - intros H. apply filter_In in H as [H G].
    apply negb_true_iff, N.leb_gt in G. destruct (I d H). lia.
Qed.

Lemma playerStep_awaits (p : Player) (e : PlayerEvent) :
  (playingId (page p) <> None -> stops p <> []) ->
  playingId (page (playerStep p e)) <> None -> stops (playerStep p e) <> [].
Proof.
  intros I. destruct e as [id0|dt]; cbn.
  - unfold handlePlay. destruct (isPlaying id0 (page p)); cbn.
    + intros H. now contradiction H.
    + intros _ E. now destruct (stops p).
  - rewrite stops_fired.
    destruct (filter (fun d => d <=? clock p + dt) (stops p)) eqn:F;
      [|intros H; now contradiction H].
    intros H E. apply I in H. apply H.
    destruct (stops p) as [|x r]; [reflexivity|]. exfalso.
    cbn in F, E. destruct (x <=? clock p + dt); discriminate.
Qed.

(** X15. Playback never hangs: whatever was played or paused before,
    three seconds (or more) without a click leave nothing playing and no
    timer pending. *)
Theorem playback_ends_within_three_seconds
    (es : list PlayerEvent) (s : State) (t0 dt : N) :
  3000 <= dt ->
  playingId (page (fold_left playerStep (es ++ [Wait dt]) (quiet s t0))) = None
  /\ stops (fold_left playerStep (es ++ [Wait dt]) (quiet s t0)) = [].
Proof.
  intros D. rewrite fold_left_app. cbn [fold_left playerStep].
  assert (I : (forall d, In d (stops (fold_left playerStep es (quiet s t0))) ->
                 clock (fold_left playerStep es (quiet s t0)) <= d
                 <= clock (fold_left playerStep es (quiet s t0)) + 3000)
              /\ (playingId (page (fold_left playerStep es (quiet s t0))) <> None ->
                  stops (fold_left playerStep es (quiet s t0)) <> [])).
  { generalize (quiet s t0)
      (conj (fun d (H : In d (stops (quiet s t0))) => match H with end)
            (fun (H : playingId (page (quiet s t0)) <> None) =>
               match H eq_refl with end)
       : (forall d, In d (stops (quiet s t0)) ->
                    clock (quiet s t0) <= d <= clock (quiet s t0) + 3000)
         /\ (playingId (page (quiet s t0)) <> None -> stops (quiet s t0) <> [])).
    induction es as [|e r IH]; intros p Hp; [exact Hp|].
    cbn [fold_left]. apply IH. destruct Hp as [A B]. split.
    - now apply playerStep_window.
    - now apply playerStep_awaits. }
  set (p := fold_left playerStep es (quiet s t0)) in *.
  destruct I as [A B].
  assert (All : filter (fun d => d <=? clock p + dt) (stops p) = stops p).
  { apply filter_all. intros d Hd. apply N.leb_le. destruct (A d Hd). lia. }
  split.
  - unfold wait. cbn. rewrite stops_fired, All.
    destruct (stops p) eqn:S; [|reflexivity].
    destruct (playingId (page p)) eqn:E; [|reflexivity].
    exfalso. apply B; [discriminate|reflexivity].
  - unfold wait. cbn. apply filter_none. intros d Hd.
    apply N.leb_le. destruct (A d Hd). lia.
Qed.

Lemma playback_ends_within_three_seconds_witness :
  playingId
    (page (fold_left playerStep ([Play "1"; Wait 1000; Play "2"] ++ [Wait 3000])
             (quiet Scenarios.grid 0))) = None.
Proof.
  apply (playback_ends_within_three_seconds
           [Play "1"; Wait 1000; Play "2"] Scenarios.grid 0 3000).
  vm_compute. discriminate.
Defined.

(** X16. A timer of an earlier playback stops a later one: when a second
    recording is started [d] milliseconds after a first, the first's
    timer ends the second's playback after only [3000 - d] milliseconds,
    and the second's own timer is still pending; started alone, the
    second would still be playing at that moment. *)
Theorem stale_timer_cuts_playback (a b : string) (s : State) (t0 d : N) :
  a <> b -> 0 < d -> d < 3000 ->
  playingId
    (page (fold_left playerStep [Play a; Wait d; Play b] (quiet s t0)))
  = Some b
  /\ playingId
       (page (fold_left playerStep [Play a; Wait d; Play b; Wait (3000 - d)]
                (quiet s t0))) = None
  /\ stops (fold_left playerStep [Play a; Wait d; Play b; Wait (3000 - d)]
              (quiet s t0)) = [t0 + d + 3000]
  /\ playingId
       (page (fold_left playerStep [Play b; Wait (3000 - d)] (quiet s t0)))
     = Some b.
Proof.
  intros Hab L H. apply String.eqb_neq in Hab.
  remember (3000 - d) as r eqn:Hr.
  assert (Hd : d + r = 3000) by lia. clear Hr.
  cbn [fold_left playerStep]. unfold quiet, handlePlay, wait, isPlaying.
  cbn. decide_N. cbn. rewrite Hab. cbn. decide_N. cbn. decide_N. cbn.
  repeat split.
Qed.

Lemma stale_timer_cuts_playback_witness :
  playingId
    (page (fold_left playerStep [Play "1"; Wait 1000; Play "2"; Wait 2000]
             (quiet Scenarios.grid 0))) = None.
Proof.
  apply (stale_timer_cuts_playback "1" "2" Scenarios.grid 0 1000);
    first [discriminate | reflexivity].
Defined.

End Playback.

(** ** The model-management panel: tabs, saving and tests *)

Section Panel.
Import ModelManagement ModelPanel.

Lemma typeEqb_eq (a b : ModelType) : typeEqb a b = true <-> a = b.
Proof. destruct a, b; cbn; split; congruence. Qed.

(** X17. The four tabs split the list: every model is on the tab of its
    type and on no other, and the four counts add up to the number of
    models. *)
Theorem tabs_partition (w : World) :
  (forall m ty, In m (filterModelsByType ty w)
                <-> In m (models (ui w)) /\ type m = ty)
  /\ (List.length (filterModelsByType stt w)
      + List.length (filterModelsByType tts w)
      + List.length (filterModelsByType llm w)
      + List.length (filterModelsByType embedding w)
      = List.length (models (ui w)))%nat.
Proof.
  unfold filterModelsByType. split.
  - intros m ty. rewrite filter_In, typeEqb_eq. reflexivity.
  - induction (models (ui w)) as [|m r IH]; [reflexivity|].
    cbn. destruct (type m); cbn; lia.
Qed.

Lemma save_ids (em : ModelConfig) (t : N) (ms : list ModelConfig) :
  map id (map (fun m => if String.eqb (id m) (id em) then touched em t else m) ms)
  = map id ms.
Proof.
  induction ms as [|m r IH]; [reflexivity|].
  cbn. rewrite IH. destruct (String.eqb_spec (id m) (id em)) as [E|E];
    [now rewrite E|reflexivity].
Qed.

Lemma unique_id (m x : ModelConfig) (ms : list ModelConfig) :
  NoDup (map id ms) -> In m ms -> In x ms -> id x = id m -> x = m.
Proof.
  induction ms as [|y r IH]; intros N Hm Hx E; [contradiction|].
  cbn in N. apply NoDup_cons_iff in N as [Ny Nr].
  destruct Hm as [<-|Hm], Hx as [<-|Hx]; try reflexivity.
  - exfalso. apply Ny. rewrite <- E. now apply in_map.
  - exfalso. apply Ny. rewrite E. now apply in_map.
  - now apply IH.
Qed.

Lemma save_over_listed (em m : ModelConfig) (t : N) (ms : list ModelConfig) :
  NoDup (map id ms) -> In m ms -> id em = id m -> type em = type m ->
  forall ty,
    List.length
      (filter (fun x => typeEqb (type x) ty)
         (map (fun x => if String.eqb (id x) (id em) then touched em t else x) ms))
    = List.length (filter (fun x => typeEqb (type x) ty) ms).
Proof.
  intros N Hm Ei Et ty.
  assert (G : forall x, In x ms ->
                typeEqb (type (if String.eqb (id x) (id em)
                               then touched em t else x)) ty
                = typeEqb (type x) ty).
  { intros x Hx. destruct (String.eqb_spec (id x) (id em)) as [E|E];
      [|reflexivity].
    rewrite Ei in E. rewrite (unique_id m x ms N Hm Hx E). cbn. now rewrite Et. }
  clear N Hm. induction ms as [|y r IH]; [reflexivity|].
  cbn [map filter]. rewrite (G y (or_introl eq_refl)).
  destruct (typeEqb (type y) ty); cbn [List.length]; rewrite IH; auto;
    intros x Hx; apply G; now right.
Qed.

(** X18. Saving never adds, removes or reorders models: the ids of the
    list are the same before and after, whatever is being edited.  When
    the ids are distinct and a listed model is opened in the dialog and
    saved as it is, every tab keeps its count and every model of the new
    list is either an old one or the opened one with a new time stamp. *)
Theorem handleSaveModel_keeps_ids (w : World) :
  map id (models (ui (handleSaveModel w))) = map id (models (ui w))
  /\ (forall m,
        NoDup (map id (models (ui w))) ->
        In m (models (ui w)) ->
        (forall ty,
           List.length (filterModelsByType ty (handleSaveModel (handleEditModel m w)))
           = List.length (filterModelsByType ty w))
        /\ (forall x,
              In x (models (ui (handleSaveModel (handleEditModel m w)))) ->
              x = touched m (now w) \/ (In x (models (ui w)) /\ id x <> id m))).
Proof.
  split.
  - unfold handleSaveModel. destruct (editingModel (ui w)); [|reflexivity].
    cbn. apply save_ids.
  - intros m N Hm. unfold filterModelsByType, handleSaveModel, handleEditModel.
    cbn. split.
    + intros ty. now apply (save_over_listed m m).
    + intros x Hx. apply in_map_iff in Hx as (y & <- & Hy).
      destruct (String.eqb_spec (id y) (id m)) as [E|E]; [now left|].
      right. now split.
Qed.

Lemma handleSaveModel_keeps_ids_witness :
  List.length
    (filterModelsByType tts
       (handleSaveModel (handleEditModel Scenarios.simba (mounted 0))))
  = List.length (filterModelsByType tts (mounted 0)).
Proof.
  apply (proj2 (handleSaveModel_keeps_ids (mounted 0)) Scenarios.simba).
  - cbn. repeat constructor; cbn; intuition discriminate.
  - cbn. right. left. reflexivity.
Defined.

Lemma getKey_setKey_same (k : string) (v : ConfigValue)
    (cfg : list (string * ConfigValue)) :
  getKey k (setKey k v cfg) = Some v.
Proof.
  unfold getKey, setKey.
  destruct (existsb (fun kv => String.eqb (fst kv) k) cfg) eqn:E.
  - induction cfg as [|[k0 v0] r IH]; [discriminate|].
    cbn in *. destruct (String.eqb k0 k) eqn:K; cbn; rewrite K;
      [reflexivity|]. now apply IH.
  - induction cfg as [|[k0 v0] r IH]; cbn in *.
    + now rewrite String.eqb_refl.
    + apply orb_false_iff in E as [K E]. rewrite K. now apply IH.
Qed.

Lemma getKey_setKey_other (k k' : string) (v : ConfigValue)
    (cfg : list (string * ConfigValue)) :
  k' <> k -> getKey k' (setKey k v cfg) = getKey k' cfg.
Proof.
  intros D. apply String.eqb_neq in D. unfold getKey, setKey.
  destruct (existsb (fun kv => String.eqb (fst kv) k) cfg).
  - induction cfg as [|[k0 v0] r IH]; [reflexivity|].
    cbn. destruct (String.eqb_spec k0 k) as [->|K]; cbn.
    + rewrite String.eqb_sym, D. exact IH.
    + destruct (String.eqb k0 k'); [reflexivity|exact IH].
  - induction cfg as [|[k0 v0] r IH]; cbn.
    + now rewrite String.eqb_sym, D.
    + destruct (String.eqb k0 k'); [reflexivity|exact IH].
Qed.

(** X19. What is typed into the Voice ID field is what gets saved: after
    opening a listed TTS model, typing a voice id and saving, the list
    holds that model with the typed voice id under the key voice_id, every
    other key of its configuration and its name, provider, model and
    status as before; on a model of another type the field does not
    exist and the edit does nothing. *)
Theorem voice_id_round_trip (m : ModelConfig) (v : string) (w : World) :
  In m (models (ui w)) ->
  (type m = tts ->
   exists m',
     In m' (models (ui (handleSaveModel (changeVoiceId v (handleEditModel m w)))))
     /\ id m' = id m
     /\ getKey "voice_id" (config m') = Some (VString v)
     /\ (forall k, k <> "voice_id" -> getKey k (config m') = getKey k (config m))
     /\ (name m', provider m', model m', status m', type m')
        = (name m, provider m, model m, status m, type m))
  /\ (type m <> tts ->
      changeVoiceId v (handleEditModel m w) = handleEditModel m w).
Proof.
  intros Hm. split.
  - intros T. unfold changeVoiceId, handleEditModel. cbn. rewrite T.
    unfold handleSaveModel. cbn.
    eexists. split.
    + apply in_map_iff. exists m. split; [|exact Hm].
      rewrite String.eqb_refl. reflexivity.
    + cbn. rewrite ?T. repeat split.
      * apply getKey_setKey_same.
      * intros k Hk. now apply getKey_setKey_other.
  - intros T. unfold changeVoiceId, handleEditModel. cbn.
    destruct (type m); try reflexivity. now contradiction T.
Qed.

Lemma voice_id_round_trip_witness :
  exists m',
    In m' (models (ui (handleSaveModel Scenarios.savingBogus)))
    /\ id m' = "tts-1"
    /\ getKey "voice_id" (config m') = Some (VString "no-such-voice")
    /\ (forall k, k <> "voice_id" ->
                  getKey k (config m') = getKey k (config Scenarios.simba))
    /\ (name m', provider m', model m', status m', type m')
       = ("Simba Multilingual", "Speechify", "simba-multilingual", active, tts).
Proof.
  apply (proj1 (voice_id_round_trip Scenarios.simba "no-such-voice" (mounted 0)
                  (or_intror (or_introl eq_refl)))).
  reflexivity.
Defined.

End Panel.

(** ** The model-management panel: tests *)

Section Tests.
Import ModelManagement ModelPanel.

Ltac decide_N :=
  repeat match goal with
  | |- context [?a <=? ?b] =>
      first [ rewrite (proj2 (N.leb_le a b)) by lia
            | rewrite (proj2 (N.leb_gt a b)) by lia ]
  end.

Lemma finishTest_fold (l : list N) (w : World) :
  List.length (toasts (fold_left (fun w' _ => finishTest w') l w))
  = (List.length (toasts w) + List.length l)%nat
  /\ testingModel (ui (fold_left (fun w' _ => finishTest w') l w))
     = match l with [] => testingModel (ui w) | _ => None end
  /\ now (fold_left (fun w' _ => finishTest w') l w) = now w.
Proof.
  revert w. induction l as [|x r IH]; intros w; [cbn; auto|].
  cbn [fold_left]. destruct (IH (finishTest w)) as (-> & -> & ->).
  cbn. rewrite length_app. cbn. repeat split; [lia|].
  now destruct r.
Qed.

Lemma benchStep_window (b : Bench) (e : BenchEvent) :
  (forall d, In d (ends b) -> now (panel b) <= d <= now (panel b) + 3000) ->
  forall d, In d (ends (benchStep b e)) ->
            now (panel (benchStep b e)) <= d <= now (panel (benchStep b e)) + 3000.
Proof.
  intros I d. destruct e as [i|dt]; cbn.
  - destruct (testDisabled i (panel b)); [apply I|]. cbn.
    intros H. apply in_app_iff in H as [H | [<- | []]]; [now apply I|lia].
  - intros H. apply filter_In in H as [H G].
    apply negb_true_iff, N.leb_gt in G. destruct (I d H). lia.
Qed.

Lemma benchStep_awaits (b : Bench) (e : BenchEvent) :
  (testingModel (ui (panel b)) <> None -> ends b <> []) ->
  testingModel (ui (panel (benchStep b e))) <> None -> ends (benchStep b e) <> [].
Proof.
  intros I. destruct e as [i|dt]; cbn.
  - destruct (testDisabled i (panel b)); [exact I|]. cbn.
    intros _ E. now destruct (ends b).
  - destruct (finishTest_fold
                (filter (fun d => d <=? now (panel b) + dt) (ends b)) (panel b))
      as (_ & -> & _).
    destruct (filter (fun d => d <=? now (panel b) + dt) (ends b)) eqn:F;
      [|intros H; now contradiction H].
    intros H E. apply I in H. apply H.
    destruct (ends b) as [|x r]; [reflexivity|]. exfalso.
    cbn in F, E. destruct (x <=? now (panel b) + dt); discriminate.
Qed.

(** X20. Every test that is started reports exactly once and the test
    indicator never hangs: a click on an enabled test button adds one
    pending timer, each timer that fires adds one toast and nothing else
    adds or drops either; and three seconds (or more) without a click
    leave no test marked as running and no timer pending. *)
Theorem tests_report_once (es : list BenchEvent) (t0 : N) :
  (forall b e,
      (List.length (toasts (panel (benchStep b e)))
       + List.length (ends (benchStep b e))
       = List.length (toasts (panel b)) + List.length (ends b)
         + match e with
           | ClickTest i => if testDisabled i (panel b) then 0 else 1
           | Pass _ => 0
           end)%nat)
  /\ (forall dt,
        3000 <= dt ->
        testingModel
          (ui (panel (fold_left benchStep (es ++ [Pass dt]) (idleBench t0))))
        = None
        /\ ends (fold_left benchStep (es ++ [Pass dt]) (idleBench t0)) = []).
Proof.
  split.
  - intros b [i|dt]; cbn.
    + destruct (testDisabled i (panel b)); cbn; [lia|].
      rewrite length_app. cbn. lia.
    + destruct (finishTest_fold
                  (filter (fun d => d <=? now (panel b) + dt) (ends b)) (panel b))
        as (-> & _ & _).
      pose proof (filter_split_length
                    (fun d => d <=? now (panel b) + dt) (ends b)). lia.
  - intros dt D. rewrite fold_left_app. cbn [fold_left benchStep].
    assert (I : (forall d, In d (ends (fold_left benchStep es (idleBench t0))) ->
                   now (panel (fold_left benchStep es (idleBench t0))) <= d
                   <= now (panel (fold_left benchStep es (idleBench t0))) + 3000)
                /\ (testingModel
                      (ui (panel (fold_left benchStep es (idleBench t0)))) <> None ->
                    ends (fold_left benchStep es (idleBench t0)) <> [])).
    { assert (I0 : (forall d, In d (ends (idleBench t0)) ->
                      now (panel (idleBench t0)) <= d
                      <= now (panel (idleBench t0)) + 3000)
                   /\ (testingModel (ui (panel (idleBench t0))) <> None ->
                       ends (idleBench t0) <> [])).
      { split; [intros d []|intros H; now contradiction H]. }
      revert I0. generalize (idleBench t0).
      induction es as [|e r IH]; intros b Hb; [exact Hb|].
      cbn [fold_left]. apply IH. destruct Hb as [A B]. split.
      - now apply benchStep_window.
      - now apply benchStep_awaits. }
    set (b := fold_left benchStep es (idleBench t0)) in *.
    destruct I as [A B].
    assert (Due : forall d, In d (ends b) -> (d <=? now (panel b) + dt) = true).
    { intros d Hd. apply N.leb_le. destruct (A d Hd). lia. }
    unfold pass. cbn. split.
    + destruct (finishTest_fold
                  (filter (fun d => d <=? now (panel b) + dt) (ends b)) (panel b))
        as (_ & -> & _).
      rewrite (filter_all _ _ Due).
      destruct (ends b) eqn:S; [|reflexivity].
      destruct (testingModel (ui (panel b))) eqn:E; [|reflexivity].
      exfalso. apply B; [discriminate|reflexivity].
    + now apply filter_none.
Qed.

Lemma tests_report_once_witness :
  testingModel
    (ui (panel (fold_left benchStep ([ClickTest "stt-1"; Pass 1000;
                                      ClickTest "tts-1"] ++ [Pass 3000])
                  (idleBench 0)))) = None.
Proof.
  apply (proj2 (tests_report_once
                  [ClickTest "stt-1"; Pass 1000; ClickTest "tts-1"] 0) 3000).
  vm_compute. discriminate.
Defined.

(** X21. The timer of an earlier test ends the indicator of a later one:
    when a second model is tested [d] milliseconds after a first, the
    first's timer clears the indicator after [3000 - d] milliseconds of
    the second test, so the second model's test button is enabled again
    while its own timer is still pending. *)
Theorem stale_timer_reenables_test (a b : string) (t0 d : N) :
  a <> b -> 0 < d -> d < 3000 ->
  testDisabled b
    (panel (fold_left benchStep [ClickTest a; Pass d; ClickTest b] (idleBench t0)))
  = true
  /\ testDisabled b
       (panel (fold_left benchStep
                 [ClickTest a; Pass d; ClickTest b; Pass (3000 - d)]
                 (idleBench t0))) = false
  /\ ends (fold_left benchStep
             [ClickTest a; Pass d; ClickTest b; Pass (3000 - d)]
             (idleBench t0)) = [t0 + d + 3000].
Proof.
  intros Hab L H. apply String.eqb_neq in Hab.
  remember (3000 - d) as r eqn:Hr.
  assert (Hd : d + r = 3000) by lia. clear Hr.
  cbn [fold_left benchStep]. unfold idleBench, handleTestModel, pass, testDisabled.
  cbn. decide_N. cbn. rewrite Hab. cbn. decide_N. cbn. decide_N. cbn.
  rewrite String.eqb_refl. repeat split.
Qed.

Lemma stale_timer_reenables_test_witness :
  testDisabled "tts-1"
    (panel (fold_left benchStep
              [ClickTest "stt-1"; Pass 1000; ClickTest "tts-1"; Pass 2000]
              (idleBench 0))) = false.
Proof.
  apply (stale_timer_reenables_test "stt-1" "tts-1" 0 1000);
    first [discriminate | reflexivity].
Defined.

End Tests.

(** ** Dialogs: what Cancel does *)

Section Dialogs.

(** X22. In the voice settings dialog Cancel undoes nothing: a choice is
    in force as soon as it is made, and closing the dialog with Cancel
    leaves the same settings as closing it with Save Settings; the two
    differ only by the toast that Save shows. *)
Theorem settings_cancel_keeps_choice (w : VoiceAgent.World) (v : string) :
  VoiceAgent.settingsOpen (VoiceAgent.ui w) = true ->
  VoiceAgent.Settings.language
    (VoiceAgent.voiceSettings
       (VoiceAgent.ui
          (VoiceAgent.steps
             [VoiceAgent.SelectLanguage v; VoiceAgent.CloseSettings] w))) = v
  /\ VoiceAgent.ui
       (VoiceAgent.steps [VoiceAgent.SelectLanguage v; VoiceAgent.CloseSettings] w)
     = VoiceAgent.ui
         (VoiceAgent.steps [VoiceAgent.SelectLanguage v; VoiceAgent.SaveSettings] w)
  /\ VoiceAgent.toasts
       (VoiceAgent.steps [VoiceAgent.SelectLanguage v; VoiceAgent.SaveSettings] w)
     = (VoiceAgent.toasts
          (VoiceAgent.steps [VoiceAgent.SelectLanguage v; VoiceAgent.CloseSettings] w)
        ++ [VoiceAgent.ToastSuccess "Settings updated"])%list.
Proof.
  intros O. unfold VoiceAgent.steps. cbn [fold_left]. unfold VoiceAgent.step.
  do 3 (cbn; rewrite ?O). repeat split.
Qed.

Lemma settings_cancel_keeps_choice_witness :
  VoiceAgent.Settings.language
    (VoiceAgent.voiceSettings
       (VoiceAgent.ui
          (VoiceAgent.steps
             [VoiceAgent.SelectLanguage "hi"; VoiceAgent.CloseSettings]
             Scenarios.recordingWithSettings))) = "hi".
Proof.
  apply (settings_cancel_keeps_choice Scenarios.recordingWithSettings "hi").
  reflexivity.
Defined.

Import ModelManagement ModelPanel.

(** X23. In the model dialog Cancel discards the edit: typing a voice id
    and closing the dialog leaves the list of models untouched, and
    opening a model again starts from the listed configuration, as if
    nothing had been typed. *)
Theorem model_cancel_discards_edit (m m2 : ModelConfig) (v : string) (w : World) :
  models (ui (closeDialog (changeVoiceId v (handleEditModel m w))))
  = models (ui w)
  /\ handleEditModel m2 (closeDialog (changeVoiceId v (handleEditModel m w)))
     = handleEditModel m2 w.
Proof.
  unfold closeDialog, changeVoiceId, handleEditModel. cbn.
  destruct (type m); split; reflexivity.
Qed.

End Dialogs.

(** ** The API client *)

Section ApiClient.
Import Api.

Lemma append_empty (s : string) : s ++ EmptyString = s.
Proof. induction s as [|c r IH]; cbn; [reflexivity|now rewrite IH]. Qed.

Lemma append_assoc (a b c : string) : (a ++ b) ++ c = a ++ (b ++ c).
Proof. induction a as [|x r IH]; cbn; [reflexivity|now rewrite IH]. Qed.

Lemma replace_absent (s p r : string) :
  RecordingsView.includes s p = false -> replace s p r = s.
Proof.
  induction s as [|c t IH]; cbn [RecordingsView.includes replace]; intros H;
    apply orb_false_iff in H as [H1 H2]; rewrite H1; [reflexivity|].
  now rewrite IH.
Qed.

(** No occurrence of "/api" can start inside [u] and end inside a "/api"
    that follows it. *)
Lemma api_at_end (u : string) :
  RecordingsView.startsWith u "/api" = false ->
  u <> EmptyString ->
  RecordingsView.startsWith (u ++ "/api") "/api" = false.
Proof.
  intros H N.
  destruct u as [|c0 [|c1 [|c2 [|c3 t]]]]; [now contradiction N| | | |exact H];
    cbn in *;
    repeat match goal with
           | |- context [Ascii.eqb ?a ?b] =>
               destruct (Ascii.eqb_spec a b); subst; cbn in *
           end; try reflexivity; try discriminate; congruence.
Qed.

Lemma replace_api_at_end (u r : string) :
  RecordingsView.includes u "/api" = false ->
  replace (u ++ "/api") "/api" r = u ++ r.
Proof.
  induction u as [|c t IH]; intros H.
  - cbn. now rewrite append_empty.
  - cbn [RecordingsView.includes] in H. apply orb_false_iff in H as [H1 H2].
    change (String c t ++ "/api") with (String c (t ++ "/api")).
    cbn [replace].
    change (String c (t ++ "/api")) with (String c t ++ "/api").
    rewrite (api_at_end (String c t) H1) by discriminate.
    cbn. now rewrite IH.
Qed.

(** X24. The socket address: for a base address made of "http", a rest
    that holds no "/api" (also not across the joint with the "ws" put in
    front of it) and a final "/api", the socket address is "ws", the same
    rest and "/ws/voice", so "https" becomes "wss".  When the base
    address has no "/api" at all the second replacement finds nothing and
    the address ends without the voice path. *)
Theorem wsUrl_derivation (x : string) :
  RecordingsView.includes ("ws" ++ x) "/api" = false ->
  wsUrl ("http" ++ x ++ "/api") = "ws" ++ x ++ "/ws/voice"
  /\ wsUrl ("http" ++ x) = "ws" ++ x.
Proof.
  intros H. unfold wsUrl.
  assert (R : forall y, replace ("http" ++ y) "http" "ws" = "ws" ++ y)
    by reflexivity.
  rewrite !R. split.
  - rewrite <- append_assoc. rewrite replace_api_at_end by exact H.
    now rewrite append_assoc.
  - now apply replace_absent.
Qed.

Lemma wsUrl_derivation_witness :
  wsUrl ("http" ++ "s://voice.example.com" ++ "/api")
  = "ws" ++ "s://voice.example.com" ++ "/ws/voice".
Proof.
  apply (wsUrl_derivation "s://voice.example.com"). reflexivity.
Defined.

Lemma header_assign (k v : string) (hs : list (string * string)) :
  header k (assign k v hs) = Some v.
Proof.
  unfold header, assign.
  destruct (existsb (fun kv => String.eqb (fst kv) k) hs) eqn:E.
  - induction hs as [|[k0 v0] r IH]; [discriminate|].
    cbn in *. destruct (String.eqb k0 k) eqn:K; cbn; rewrite K;
      [reflexivity|]. now apply IH.
  - induction hs as [|[k0 v0] r IH]; cbn in *.
    + now rewrite String.eqb_refl.
    + apply orb_false_iff in E as [K E]. rewrite K. now apply IH.
Qed.

Lemma getItem_removeItem (k : string) (b : Browser) :
  getItem k (removeItem k b) = None.
Proof.
  unfold getItem, removeItem. cbn.
  induction (localStorage b) as [|[k0 v0] r IH]; [reflexivity|].
  cbn. destruct (String.eqb k0 k) eqn:K; cbn; [exact IH|].
  now rewrite K.
Qed.

(** X25. The token and the 401: a request carries the header
    "Authorization: Bearer <token>" exactly when a non-empty token is
    stored; after a response with status 401 the token is gone, the page
    is sent to /login and later requests go out with their headers
    untouched; any other failed response changes nothing. *)
Theorem token_dropped_on_401 (b : Browser) (hs : list (string * string)) :
  (forall token,
      getItem "auth_token" b = Some token -> token <> EmptyString ->
      header "Authorization" (requestInterceptor b hs) = Some ("Bearer " ++ token))
  /\ (getItem "auth_token" b = None \/ getItem "auth_token" b = Some EmptyString ->
      requestInterceptor b hs = hs)
  /\ requestInterceptor (responseErrorInterceptor (Some 401) b) hs = hs
  /\ href (responseErrorInterceptor (Some 401) b) = "/login"
  /\ (forall status, status <> Some 401 ->
                     responseErrorInterceptor status b = b).
Proof.
  repeat split.
  - intros token G T. unfold requestInterceptor. rewrite G.
    destruct token; [now contradiction T|]. cbn. apply header_assign.
  - intros [G|G]; unfold requestInterceptor; now rewrite G.
  - unfold requestInterceptor, responseErrorInterceptor.
    change (getItem "auth_token"
              (mkBrowser (localStorage (removeItem "auth_token" b)) "/login"))
      with (getItem "auth_token" (removeItem "auth_token" b)).
    now rewrite getItem_removeItem.
  - intros status S. unfold responseErrorInterceptor.
    destruct status as [n|]; [|reflexivity].
    destruct (N.eq_dec n 401) as [->|D]; [now contradiction S|].
    destruct n as [|p]; [reflexivity|].
    do 9 (destruct p as [p|p|]; try reflexivity).
    all: exfalso; apply D; reflexivity.
Qed.

Lemma token_dropped_on_401_witness :
  header "Authorization"
    (requestInterceptor (mkBrowser [("auth_token", "abc")] "/admin") [])
  = Some "Bearer abc".
Proof.
  apply (proj1 (token_dropped_on_401
                  (mkBrowser [("auth_token", "abc")] "/admin") []) "abc").
  - reflexivity.
  - discriminate.
Defined.

End ApiClient.

(** ** The voice-agent page: disconnecting *)

Section Disconnecting.
Import VoiceAgent.

Lemma fireTimer_transcription (w : World) (t : Timer) :
  currentTranscription (ui (fireTimer w t))
  = match callback t with
    | TranscriptionUpdate text => text
    | _ => currentTranscription (ui w)
    end.
Proof. destruct t as [d cb]. destruct cb; reflexivity. Qed.

Lemma fold_fireTimer_transcription (l : list Timer) (w w' : World) :
  currentTranscription (ui w) = currentTranscription (ui w') ->
  currentTranscription (ui (fold_left fireTimer l w))
  = currentTranscription (ui (fold_left fireTimer l w')).
Proof.
  revert w w'. induction l as [|x r IH]; intros w w' E; [exact E|].
  cbn [fold_left]. apply IH. rewrite !fireTimer_transcription.
  now destruct (callback x).
Qed.

(** C7, as the code has it. handleDisconnect has no guard: from every
    state it clears the connection, recording and processing flags and
    shows its toast.  It touches nothing else and cancels nothing: every
    timer stays set, and when time passes the conversation and the
    transcription become what they would have become without the
    disconnect.  The disconnected state is not final: the connect button
    is enabled again and a click on it connects the session. *)
Theorem handleDisconnect_clears_flags_only (w : World) (dt : N) (f : Faults) :
  (isConnected (ui (handleDisconnect w)), isRecording (ui (handleDisconnect w)),
   isProcessing (ui (handleDisconnect w))) = (false, false, false)
  /\ toasts (handleDisconnect w)
     = (toasts w ++ [ToastSuccess "Disconnected from voice agent"])%list
  /\ (isMuted (ui (handleDisconnect w)), conversation (ui (handleDisconnect w)),
      currentTranscription (ui (handleDisconnect w)),
      settingsOpen (ui (handleDisconnect w)), textInput (ui (handleDisconnect w)),
      voiceSettings (ui (handleDisconnect w)), now (handleDisconnect w),
      timers (handleDisconnect w))
     = (isMuted (ui w), conversation (ui w), currentTranscription (ui w),
        settingsOpen (ui w), textInput (ui w), voiceSettings (ui w), now w,
        timers w)
  /\ isConnected (ui (step w ClickDisconnect)) = false
  /\ conversation (ui (elapse dt (handleDisconnect w)))
     = conversation (ui (elapse dt w))
  /\ currentTranscription (ui (elapse dt (handleDisconnect w)))
     = currentTranscription (ui (elapse dt w))
  /\ timers (elapse dt (handleDisconnect w)) = timers (elapse dt w)
  /\ enabled (ClickConnect f) (ui (handleDisconnect w)) = true
  /\ isConnected (ui (steps [ClickDisconnect; ClickConnect noFaults] w)) = true.
Proof.
  repeat split.
  - unfold step. cbn. destruct (isConnected (ui w)) eqn:E; [reflexivity|exact E].
  - rewrite !elapse_conversation. reflexivity.
  - unfold elapse. cbn. now apply fold_fireTimer_transcription.
  - rewrite !elapse_timers. reflexivity.
  - unfold steps. cbn [fold_left]. unfold step at 2. cbn [enabled].
    destruct (isConnected (ui w)) eqn:E.
    + reflexivity.
    + unfold step. cbn [enabled]. rewrite E. reflexivity.
Qed.

(** C7, as stated, fails.  A recording is being processed when the user
    disconnects: the turn is not cancelled, its reply is appended two
    seconds later; disconnected while recording, the transcription
    timers still write the transcription.  And the disconnected state is
    not final: the connect button is enabled and a click on it connects
    the session again. *)
Lemma disconnect_counterexample :
  isProcessing (ui Scenarios.processingVoice) = true
  /\ timers (step Scenarios.processingVoice ClickDisconnect)
     = [mkTimer 4500 RecordingReply]
  /\ payload (steps [ClickDisconnect; Elapse 2000] Scenarios.processingVoice)
     = Some recordingReplyContent
  /\ currentTranscription
       (ui (steps [ClickDisconnect; Elapse 2000] Scenarios.recording))
     = fullTranscription
  /\ enabled (ClickConnect noFaults)
       (ui (step Scenarios.processingVoice ClickDisconnect)) = true
  /\ isConnected
       (ui (steps [ClickDisconnect; ClickConnect noFaults]
              Scenarios.processingVoice)) = true.
Proof. repeat split. Qed.

End Disconnecting.

(** ** The voice-agent page: failures and what follows them *)

Section Failures.
Import VoiceAgent.













(** With no call throwing, the handler with its throwing calls marked is
    handleTextSubmit. *)
Lemma unguarded_handleTextSubmit_agrees (w : World) :
  Unguarded.handleTextSubmit Unguarded.noThrow w = handleTextSubmit w.
Proof. reflexivity. Qed.


End Failures.

(** ** The model-management panel: which configurations get saved *)

Section PanelInvariant.
Import ModelManagement ModelPanel PanelRuns.









End PanelInvariant.
